(** * combine_data.py: perf counter dumps and run_tpch timings combined

    A shallow embedding of [src/combine_data.py].  Python strings are
    [string]s whose characters are the code points U+0000..U+00FF, dicts
    with string keys are [gmap string _], the exceptions the script can
    meet are values of [exn], and the calls into the Python runtime and
    into pandas whose results the script only passes along (float(),
    read_csv, to_csv, the order inside a column) are the fields of the
    interfaces [PyRuntime] and [Pandas]. *)

From Stdlib Require Import ZArith Ascii String List Bool Lia.
From Stdlib Require Import Sorting.Sorted Sorting.Permutation.
From stdpp Require Import base option list gmap strings pretty.

Local Open Scope Z_scope.
#[local] Set Warnings "-clear-no-such-hyp".

(** ** Python [str] methods used by the script *)

Module PyStr.

Definition code (c : ascii) : N := N_of_ascii c.

(** [str.isspace] on one character of U+0000..U+00FF: TAB..CR, FS..US,
    SPACE, NEL and NBSP. *)
Definition isspace (c : ascii) : bool :=
  let n := code c in
  (((9 <=? n) && (n <=? 13)) || ((28 <=? n) && (n <=? 32))
   || (n =? 133) || (n =? 160))%N.

(** [\d] of module [re] on the same range: the ten ASCII digits. *)
Definition isdigit (c : ascii) : bool :=
  let n := code c in ((48 <=? n) && (n <=? 57))%N.

(** [s.lstrip(chars)], [s.rstrip(chars)] and [s.strip(chars)], the set
    [chars] given by its membership test. *)
Fixpoint lstrip_chars (f : ascii → bool) (s : string) : string :=
  match s with
  | EmptyString => EmptyString
  | String c s' => if f c then lstrip_chars f s' else s
  end.

Fixpoint rstrip_chars (f : ascii → bool) (s : string) : string :=
  match s with
  | EmptyString => EmptyString
  | String c s' =>
      match rstrip_chars f s' with
      | EmptyString => if f c then EmptyString else String c EmptyString
      | r => String c r
      end
  end.

Definition strip_chars (f : ascii → bool) (s : string) : string :=
  rstrip_chars f (lstrip_chars f s).

(** [s.strip()]: without an argument, whitespace is removed. *)
Definition strip (s : string) : string := strip_chars isspace s.

(** [s.replace(old, new)] for a pattern [old] of one character. *)
Fixpoint replace (old : ascii) (new : string) (s : string) : string :=
  match s with
  | EmptyString => EmptyString
  | String c s' =>
      if Ascii.eqb c old then new +:+ replace old new s'
      else String c (replace old new s')
  end.

(** [s.split(sep)] for a separator of one character; the result is
    never empty. *)
Fixpoint split (sep : ascii) (s : string) : list string :=
  match s with
  | EmptyString => [EmptyString]
  | String c s' =>
      if Ascii.eqb c sep then EmptyString :: split sep s'
      else match split sep s' with
           | h :: t => String c h :: t
           | [] => [String c EmptyString]
           end
  end.

(** [s.endswith(suffix)] *)
Fixpoint endswith (suffix s : string) : bool :=
  String.eqb suffix s ||
  match s with
  | EmptyString => false
  | String _ s' => endswith suffix s'
  end.

(** [s[len(p):]] when [s.startswith(p)] *)
Fixpoint drop_prefix (p s : string) : option string :=
  match p, s with
  | EmptyString, _ => Some s
  | String a p', String b s' =>
      if Ascii.eqb a b then drop_prefix p' s' else None
  | String _ _, EmptyString => None
  end.

(** The characters of [s], and the predicate "all of them satisfy [f]". *)
Fixpoint chars (s : string) : list ascii :=
  match s with
  | EmptyString => []
  | String c s' => c :: chars s'
  end.

Definition all (f : ascii → bool) (s : string) : bool := forallb f (chars s).

(** The value of a string of decimal digits, most significant first. *)
Fixpoint digits_value (acc : Z) (s : string) : Z :=
  match s with
  | EmptyString => acc
  | String c s' => digits_value (10 * acc + (Z.of_N (code c) - 48)) s'
  end.

(** [int(s)] on the strings the script passes to it.  [None] is
    [ValueError]; an argument with a sign, blanks or underscores is
    outside the fragment and also answered [None]. *)
Definition int (s : string) : option Z :=
  match s with
  | EmptyString => None
  | _ => if all isdigit s then Some (digits_value 0 s) else None
  end.

End PyStr.

(** ** The filename pattern

    [filename_re = re.compile(r"r(\d+)_(\d+)([hv])_t(\d+)")] and its use
    [filename_re.match(csv_file.stem)]: the pattern is tried at the start
    of the stem and nothing is asked of what follows the match.  Every
    [\d+] is greedy; as the piece after it never starts with a digit, the
    longest run of digits is the only one the backtracking matcher can
    settle on. *)

(** Longest prefix whose characters satisfy [f], and the rest. *)
Fixpoint span (f : ascii → bool) (s : string) : string * string :=
  match s with
  | EmptyString => (EmptyString, EmptyString)
  | String c s' =>
      if f c then let '(d, rest) := span f s' in (String c d, rest)
      else (EmptyString, s)
  end.

(** [(\d+)] *)
Definition re_digits (s : string) : option (string * string) :=
  match span PyStr.isdigit s with
  | (EmptyString, _) => None
  | (d, rest) => Some (d, rest)
  end.

(** [([hv])] *)
Definition re_engine (s : string) : option (ascii * string) :=
  match s with
  | String c rest =>
      if Ascii.eqb c "h" || Ascii.eqb c "v" then Some (c, rest) else None
  | EmptyString => None
  end.

(** The four groups of a match, [match.groups()], or [None]. *)
Definition filename_re_match (stem : string)
  : option (string * string * ascii * string) :=
  s ← PyStr.drop_prefix "r" stem;
  '(rep, s) ← re_digits s;
  s ← PyStr.drop_prefix "_" s;
  '(q_num, s) ← re_digits s;
  '(eng, s) ← re_engine s;
  s ← PyStr.drop_prefix "_t" s;
  '(threads, _) ← re_digits s;
  Some (rep, q_num, eng, threads).

(** The strings the pattern describes, written out: the spec's reading of
    "the stem matches the pattern". *)
Definition is_number (s : string) : Prop :=
  s ≠ EmptyString ∧ PyStr.all PyStr.isdigit s = true.

(** The text [rest] does not go on with a digit. *)
Definition no_digit_ahead (rest : string) : Prop :=
  ∀ c, head (PyStr.chars rest) = Some c → PyStr.isdigit c = false.

Definition pattern_string (rep q_num : string) (eng : ascii) (threads : string)
  : string :=
  "r" +:+ rep +:+ "_" +:+ q_num +:+ String eng ("_t" +:+ threads).

Definition stem_has_pattern (stem : string) : Prop :=
  ∃ rep q_num eng threads,
    is_number rep ∧ is_number q_num ∧ (eng = "h"%char ∨ eng = "v"%char) ∧
    is_number threads ∧ stem = pattern_string rep q_num eng threads.

Definition stem_starts_with_pattern (stem : string) : Prop :=
  ∃ rep q_num eng threads rest,
    is_number rep ∧ is_number q_num ∧ (eng = "h"%char ∨ eng = "v"%char) ∧
    is_number threads ∧
    stem = pattern_string rep q_num eng threads +:+ rest.


(** ** pathlib *)

Module PyPath.

(** [name.rpartition(".")]: the parts before and after the last dot. *)
Fixpoint rsplit_dot (name : string) : option (string * string) :=
  match name with
  | EmptyString => None
  | String c s =>
      match rsplit_dot s with
      | Some (a, b) => Some (String c a, b)
      | None => if Ascii.eqb c "." then Some (EmptyString, s) else None
      end
  end.

(** [PurePath.stem]: the name without its last suffix; a last dot at
    either end of the name starts no suffix. *)
Definition stem (name : string) : string :=
  match rsplit_dot name with
  | Some (EmptyString, _) | Some (_, EmptyString) | None => name
  | Some (a, _) => a
  end.

End PyPath.

(** ** Exceptions *)

Inductive exn_class :=
  | IndexError | ValueError | KeyError | TypeError | OSError
  | UnicodeDecodeError | EmptyDataError | ParserError.

#[global] Instance exn_class_eq_dec : EqDecision exn_class.
Proof. solve_decision. Defined.

(** An exception object: its class and [str(e)].  All classes above derive
    from [Exception], so [except Exception] catches each of them. *)
Record exn := Exn { exn_cls : exn_class; exn_str : string }.

Inductive outcome (A : Type) :=
  | Returned (a : A)
  | Raised (e : exn).
Arguments Returned {A} a.
Arguments Raised {A} e.

(** ** Tables *)

(** The values of a row dict and the cells of a table over floats [F]:
    [None] (NaN once in a DataFrame), a string, an int or a float. *)
Inductive pyval (F : Type) :=
  | VNone
  | VStr (s : string)
  | VInt (z : Z)
  | VFloat (x : F).
Arguments VNone {F}.
Arguments VStr {F} s.
Arguments VInt {F} z.
Arguments VFloat {F} x.

(** A DataFrame: its column labels and its rows in index order.  A row
    holds the cells that were given; a column it does not hold reads as
    missing. *)
Record DataFrame (F : Type) := Frame {
  columns : gset string;
  rows : list (gmap string (pyval F));
}.
Arguments Frame {F} columns rows.
Arguments columns {F} d.
Arguments rows {F} d.

(** ** The Python runtime and pandas, as far as the script relies on them *)

Class PyRuntime := {
  (** the values of type [float] *)
  pyfloat : Type;
  (** [float(s)] on a string; [None] is [ValueError] *)
  py_float : string → option pyfloat;
}.

Class Pandas `{PyRuntime} := {
  (** a cell of the frame [pd.read_csv(..., header=None)] returns *)
  scalar : Type;
  (** [float(x)] on such a cell; [None] is [ValueError] *)
  scalar_float : scalar → option pyfloat;
  (** [str(x)] on such a cell *)
  scalar_str : scalar → string;
  (** the content of a CSV file *)
  csv_text : Type;
  (** [df.to_csv(path, index=False)]: the content written *)
  to_csv : DataFrame pyfloat → csv_text;
  (** [pd.read_csv(path)] on a file with that content *)
  read_csv : csv_text → outcome (DataFrame pyfloat);
  (** the order [sort_values] puts the values of one column in, missing
      values last *)
  val_leb : pyval pyfloat → pyval pyfloat → bool;
  val_leb_total : ∀ a b, val_leb a b = true ∨ val_leb b a = true;
  val_leb_trans : ∀ a b c,
    val_leb a b = true → val_leb b c = true → val_leb a c = true;
}.

(** ** The input directory *)

(** What [with open(path, 'r') as f: for line in f] meets: [open] raises,
    or the iteration yields lines (each with its line end) and then stops
    at the end of the file or with an exception of the read. *)
Inductive text_file :=
  | OpenFails (e : exn)
  | Lines (ls : list string) (stop : option exn).

Abbreviation value := (pyval pyfloat).
Abbreviation row := (gmap string (pyval pyfloat)).
Abbreviation table := (DataFrame pyfloat).

Section Script.
Context `{Pandas}.

(** *** Effects *)

(** What a run can change: the lines printed so far and the content of the
    file at [args.output] ([None] while the path does not exist). *)
Record world := World {
  stdout : list string;
  output_file : option csv_text;
}.

(** A statement or expression of the script: it runs in a world and either
    returns or raises. *)
Definition M (A : Type) : Type := world → outcome A * world.

Definition ret {A} (a : A) : M A := λ w, (Returned a, w).

Definition bind {A B} (m : M A) (k : A → M B) : M B :=
  λ w, match m w with
       | (Returned a, w') => k a w'
       | (Raised e, w') => (Raised e, w')
       end.

Definition lift {A} (o : outcome A) : M A := λ w, (o, w).

(** [try: body  except <classes>: handler] *)
Definition try_except {A} (body : M A) (caught : exn → bool)
    (handler : exn → M A) : M A :=
  λ w, match body w with
       | (Raised e, w') => if caught e then handler e w' else (Raised e, w')
       | r => r
       end.

Definition print (line : string) : M unit :=
  λ w, (Returned tt, World (stdout w ++ [line]) (output_file w)).

Definition write_output (content : csv_text) : M unit :=
  λ w, (Returned tt, World (stdout w) (Some content)).

Definition read_output : M (option csv_text) :=
  λ w, (Returned (output_file w), w).

Notation "x <- m ;; k" := (bind m (λ x, k))
  (at level 100, m at next level, right associativity, only parsing).
Notation "m ;;; k" := (bind m (λ _, k))
  (at level 100, right associativity, only parsing).

Definition except_Exception (e : exn) : bool := true.
Definition except_class (c : exn_class) (e : exn) : bool :=
  bool_decide (exn_cls e = c).

(** A directory entry, seen through the two calls that read it:
    [open] with iteration, and
    [pd.read_csv(path, header=None, skipinitialspace=True, skiprows=1)],
    whose frame is given by rows of cells. *)
Record file := File {
  as_text : text_file;
  as_frame : outcome (list (list scalar));
}.

(** [Path(directory).resolve()]: the path as text, its last component,
    the entries directly inside, and what [os.stat] raises for a name
    inside it, if anything, besides the errors that only tell that there
    is no such entry (a name too long for the file system, a directory
    that may be listed but not searched). *)
Record directory := Directory {
  dir_path : string;
  dir_name : string;
  dir_files : gmap string file;
  dir_stat_error : string → option exn;
}.

(** *** parse_perf_semicolon_format *)

(** [p.strip().replace("'", "")] *)
Definition clean (p : string) : string :=
  PyStr.replace "'" "" (PyStr.strip p).

(** The body of [for line in f]. *)
Definition parse_line (metrics : gmap string (option pyfloat)) (line : string)
  : gmap string (option pyfloat) :=
  let parts := clean <$> PyStr.split ";" line in
  if decide (3 ≤ length parts)%nat then
    let val_str := default EmptyString (parts !! 0%nat) in
    let metric_name := default EmptyString (parts !! 2%nat) in
    if String.eqb val_str "<not supported>" || String.eqb val_str "" then
      <[metric_name := None]> metrics
    else
      match py_float val_str with
      | Some x => <[metric_name := Some x]> metrics
      | None => <[metric_name := None]> metrics
      end
  else metrics.

(** The [try] block, run on the local [metrics]: the dict as the block
    leaves it and the exception that ended it, if any. *)
Definition read_metrics (f : text_file) (metrics : gmap string (option pyfloat))
  : gmap string (option pyfloat) * option exn :=
  match f with
  | OpenFails e => (metrics, Some e)
  | Lines ls stop => (foldl parse_line metrics ls, stop)
  end.

Definition parse_perf_semicolon_format (file_path : string) (f : text_file)
  : M (gmap string (option pyfloat)) :=
  let '(metrics, raised) := read_metrics f ∅ in
  match raised with
  | Some e => print ("Error reading " +:+ file_path +:+ ": " +:+ exn_str e)
  | None => ret tt
  end;;;
  ret metrics.

(** *** build_combined_dataframe *)

(** [l[i]] *)
Definition index {A} (l : list A) (i : nat) : outcome A :=
  match l !! i with
  | Some x => Returned x
  | None => Raised (Exn IndexError "list index out of range")
  end.

(** [int(s)] *)
Definition py_int (s : string) : outcome Z :=
  match PyStr.int s with
  | Some z => Returned z
  | None => Raised (Exn ValueError "invalid literal for int() with base 10")
  end.

(** [float(x)] on a cell *)
Definition to_float (x : scalar) : outcome pyfloat :=
  match scalar_float x with
  | Some v => Returned v
  | None => Raised (Exn ValueError "could not convert string to float")
  end.

(** [csv_data.empty]: some axis has length 0. *)
Definition frame_empty (csv_data : list (list scalar)) : bool :=
  match csv_data with
  | [] | [] :: _ => true
  | _ => false
  end.

(** [csv_data.iloc[i, j]] *)
Definition iloc (csv_data : list (list scalar)) (i j : nat) : outcome scalar :=
  match csv_data !! i ≫= (.!! j) with
  | Some x => Returned x
  | None =>
      Raised (Exn IndexError "single positional indexer is out-of-bounds")
  end.

(** The block "Parse main CSV": [(execution_time, query_label)]. *)
Definition parse_main_csv (f : file) : M (option pyfloat * option string) :=
  try_except
    (csv_data <- lift (as_frame f);;
     if negb (frame_empty csv_data) then
       x <- lift (iloc csv_data 0 1);;
       execution_time <- lift (to_float x);;
       y <- lift (iloc csv_data 0 0);;
       ret (Some execution_time, Some (PyStr.strip (scalar_str y)))
     else ret (None, None))
    except_Exception
    (λ _, ret (None, None)).

Definition opt_str (o : option string) : value :=
  match o with Some s => VStr s | None => VNone end.
Definition opt_float (o : option pyfloat) : value :=
  match o with Some x => VFloat x | None => VNone end.

(** The dict literal of "Consolidate row data". *)
Definition row_literal (machine_name compiler : string)
    (repetition query : Z) (eng : ascii) (threads : Z)
    (query_label : option string) (execution_time : option pyfloat) : row :=
  {[ "machine" := VStr machine_name;
     "compiler" := VStr compiler;
     "repetition" := VInt repetition;
     "query" := VInt query;
     "engine" := VStr (if Ascii.eqb eng "v" then "vectorwise" else "hyper");
     "threads" := VInt threads;
     "query_label" := opt_str query_label;
     "time" := opt_float execution_time ]}.

(** [row.update(perf_data)]: the entries of [perf_data] replace those of
    [row] with the same key. *)
Definition update (r : row) (perf_data : gmap string (option pyfloat)) : row :=
  (opt_float <$> perf_data) ∪ r.

(** [base_path.glob("*.csv")], in the order the listing gives. *)
Definition glob_csv (d : directory) : list (string * file) :=
  filter (λ e, PyStr.endswith ".csv" e.1 = true) (map_to_list (dir_files d)).

(** [(base_path / name).exists()]: [stat] is called on the path; an
    [OSError] for a missing entry gives [False], any other one is raised
    again. *)
Definition path_exists (d : directory) (name : string) : outcome bool :=
  match dir_stat_error d name with
  | Some e => Raised e
  | None => Returned (bool_decide (is_Some (dir_files d !! name)))
  end.

(** [open(base_path / name, 'r')], with the iteration over its lines. *)
Definition open_text (d : directory) (name : string) : text_file :=
  match dir_files d !! name with
  | Some f => as_text f
  | None => OpenFails (Exn OSError "[Errno 2] No such file or directory")
  end.

(** One turn of [for csv_file in ...] on the list [rows]. *)
Definition scan_file (d : directory) (machine_name compiler : string)
    (csv_file : string * file) (rows : list row) : M (list row) :=
  let stem := PyPath.stem csv_file.1 in
  match filename_re_match stem with
  | None => ret rows
  | Some (rep, q_num, eng, threads) =>
      parsed <- parse_main_csv csv_file.2;;
      let '(execution_time, query_label) := parsed in
      let perf_name := stem +:+ ".data" in
      found <- lift (path_exists d perf_name);;
      perf_data <-
        (if found : bool then
           parse_perf_semicolon_format
             (dir_path d +:+ "/" +:+ perf_name) (open_text d perf_name)
         else ret ∅);;
      repetition <- lift (py_int rep);;
      query <- lift (py_int q_num);;
      threads <- lift (py_int threads);;
      ret (rows ++
           [update (row_literal machine_name compiler repetition query eng
                      threads query_label execution_time) perf_data])
  end.

Fixpoint for_each {A B} (l : list A) (body : A → B → M B) (acc : B) : M B :=
  match l with
  | [] => ret acc
  | x :: l' => acc' <- body x acc;; for_each l' body acc'
  end.

(** [pd.DataFrame(rows)] on a list of dicts: the columns are the keys met. *)
Definition pd_DataFrame (rs : list row) : table :=
  Frame (⋃ (dom <$> rs)) rs.

Definition build_combined_dataframe (d : directory) : M table :=
  let pieces := PyStr.split "_" (dir_name d) in
  machine_name <- lift (index pieces 0);;
  compiler <- lift (index pieces 1);;
  rs <- for_each (glob_csv d) (scan_file d machine_name compiler) [];;
  ret (pd_DataFrame rs).

(** *** Table operations of the entry point *)

(** [df.empty] *)
Definition df_empty (df : table) : bool :=
  bool_decide (rows df = []) || bool_decide (columns df = ∅).

(** [pd.concat([a, b], ignore_index=True)]: the rows of [a], then those of
    [b]; a column of either is a column of the result. *)
Definition concat (a b : table) : table :=
  Frame (columns a ∪ columns b) (rows a ++ rows b).

(** The cell of row [r] in column [c]. *)
Definition cell (r : row) (c : string) : value := default VNone (r !! c).

(** Comparison of two rows on the columns [keys], the first column that
    tells them apart deciding. *)
Fixpoint row_leb (keys : list string) (r1 r2 : row) : bool :=
  match keys with
  | [] => true
  | c :: keys' =>
      if val_leb (cell r1 c) (cell r2 c) then
        if val_leb (cell r2 c) (cell r1 c) then row_leb keys' r1 r2 else true
      else false
  end.

Fixpoint insert_sorted {A} (leb : A → A → bool) (x : A) (l : list A) : list A :=
  match l with
  | [] => [x]
  | y :: l' => if leb x y then x :: l else y :: insert_sorted leb x l'
  end.

Definition stable_sort {A} (leb : A → A → bool) (l : list A) : list A :=
  foldr (insert_sorted leb) [] l.

(** [df.sort_values(by=keys)]: [KeyError] on a label that is no column,
    else the rows in ascending order of their [keys] cells. *)
Definition sort_values (keys : list string) (df : table) : outcome table :=
  match List.find (λ c, bool_decide (c ∉ columns df)) keys with
  | Some c => Raised (Exn KeyError c)
  | None => Returned (Frame (columns df) (stable_sort (row_leb keys) (rows df)))
  end.

Definition sort_key : list string := ["machine"; "query"; "threads"; "repetition"].

(** *** The entry point *)

(** [args] after [parse_args()], the directory already looked up. *)
Record args := Args {
  arg_dir : directory;
  arg_output : string;
  arg_append : bool;
}.

(** The [if args.append and output_path.exists(): ... else: ...] block:
    the table [final_df] before it is sorted. *)
Definition merge_existing (a : args) (new_df : table) : M table :=
  existing <- read_output;;
  match arg_append a, existing with
  | true, Some content =>
      print ("Appending to existing file: " +:+ arg_output a);;;
      try_except
        (existing_df <- lift (read_csv content);;
         ret (concat existing_df new_df))
        (except_class EmptyDataError)
        (λ _, ret new_df)
  | _, _ => ret new_df
  end.

Definition main (a : args) : M unit :=
  print ("Parsing data for machine: " +:+ dir_name (arg_dir a));;;
  new_df <- build_combined_dataframe (arg_dir a);;
  if negb (df_empty new_df) then
    final_df <- merge_existing a new_df;;
    final_df <- lift (sort_values sort_key final_df);;
    write_output (to_csv final_df);;;
    print ("Success! Exported " +:+ pretty (length (rows new_df)) +:+
           " new rows. Total rows in file: " +:+
           pretty (length (rows final_df)))
  else
    print "No valid file pairs found.".

(** *** Notions the statements below are written in *)

(** Ascending order of two rows on the columns [keys], read off the
    column order: the first column whose cells differ decides. *)
Definition val_lt (x y : value) : Prop :=
  val_leb x y = true ∧ val_leb y x = false.
Definition val_eqv (x y : value) : Prop :=
  val_leb x y = true ∧ val_leb y x = true.

Fixpoint row_le (keys : list string) (r1 r2 : row) : Prop :=
  match keys with
  | [] => True
  | c :: keys' =>
      val_lt (cell r1 c) (cell r2 c) ∨
      (val_eqv (cell r1 c) (cell r2 c) ∧ row_le keys' r1 r2)
  end.

(** The keys of the dict literal in [build_combined_dataframe]. *)
Definition base_columns : list string :=
  ["machine"; "compiler"; "repetition"; "query"; "engine"; "threads";
   "query_label"; "time"].

(** The line [parse_perf_semicolon_format] prints for an exception. *)
Definition error_line (file_path : string) (e : exn) : string :=
  "Error reading " +:+ file_path +:+ ": " +:+ exn_str e.

(** The world after the lines [ls] were printed. *)
Definition printed (w : world) (ls : list string) : world :=
  World (stdout w ++ ls) (output_file w).

(** The world after the first line of [main] was printed. *)
Definition started (a : args) (w : world) : world :=
  printed w ["Parsing data for machine: " +:+ dir_name (arg_dir a)].

(** The pair [(execution_time, query_label)] the first row of a frame
    gives, both [None] when it gives none. *)
Definition csv_fields (f : file) : option pyfloat * option string :=
  match as_frame f with
  | Returned (r :: _) =>
      match r !! 1%nat ≫= scalar_float, r !! 0%nat with
      | Some t, Some y => (Some t, Some (PyStr.strip (scalar_str y)))
      | _, _ => (None, None)
      end
  | _ => (None, None)
  end.

(** The metrics a text file gives and the lines printed while reading it. *)
Definition perf_metrics (f : text_file) : gmap string (option pyfloat) :=
  match f with
  | OpenFails _ => ∅
  | Lines ls _ => foldl parse_line ∅ ls
  end.

Definition perf_log (file_path : string) (f : text_file) : list string :=
  match f with
  | OpenFails e | Lines _ (Some e) => [error_line file_path e]
  | Lines _ None => []
  end.

(** The same for the companion of a stem, a missing one giving nothing. *)
Definition companion_metrics (d : directory) (stem : string)
  : gmap string (option pyfloat) :=
  from_option (λ pf, perf_metrics (as_text pf)) ∅
    (dir_files d !! (stem +:+ ".data")).

Definition companion_log (d : directory) (stem : string) : list string :=
  from_option
    (λ pf, perf_log (dir_path d +:+ "/" +:+ stem +:+ ".data") (as_text pf)) []
    (dir_files d !! (stem +:+ ".data")).

(** The exception that ends the turn of the loop on a file, if any: what
    the existence test of the companion of a matched stem raises. *)
Definition stat_error_of (d : directory) (csv_file : string * file)
  : option exn :=
  let stem := PyPath.stem csv_file.1 in
  match filename_re_match stem with
  | None => None
  | Some _ => dir_stat_error d (stem +:+ ".data")
  end.

(** The row one file adds when its turn comes to an end, if any, and the
    lines printed on the way. *)
Definition row_of (d : directory) (machine_name compiler : string)
    (csv_file : string * file) : option row :=
  let stem := PyPath.stem csv_file.1 in
  match filename_re_match stem with
  | None => None
  | Some (rep, q_num, eng, threads) =>
      Some (update
              (row_literal machine_name compiler
                 (PyStr.digits_value 0 rep) (PyStr.digits_value 0 q_num) eng
                 (PyStr.digits_value 0 threads)
                 (csv_fields csv_file.2).2 (csv_fields csv_file.2).1)
              (companion_metrics d stem))
  end.

Definition log_of (d : directory) (csv_file : string * file) : list string :=
  let stem := PyPath.stem csv_file.1 in
  match filename_re_match stem with
  | None => []
  | Some _ => companion_log d stem
  end.

(** The turns of the loop on [files], started on the rows [rs]: the rows
    at the end, or the exception of the first turn that raises, and the
    lines printed until then. *)
Fixpoint scan_files (d : directory) (machine_name compiler : string)
    (files : list (string * file)) (rs : list row)
  : outcome (list row) * list string :=
  match files with
  | [] => (Returned rs, [])
  | csv_file :: files' =>
      match stat_error_of d csv_file with
      | Some e => (Raised e, [])
      | None =>
          let r := scan_files d machine_name compiler files'
                     (rs ++ option_list (row_of d machine_name compiler csv_file)) in
          (r.1, log_of d csv_file ++ r.2)
      end
  end.

(** The existence test raises for no companion of a matched file. *)
Definition companions_reachable (d : directory) : Prop :=
  Forall (λ csv_file, stat_error_of d csv_file = None) (glob_csv d).

End Script.

(** ** An instance to run the script on

    Floats are decimal literals [ddd] or [ddd.ddd] kept as a mantissa and
    the number of digits after the point; [float()] answers [None] on any
    other text.  A cell of a CSV frame is the text of its field; a CSV
    file holds the table written to it, and [None] is a file with no text
    at all.  The column order puts ints first, then floats, then strings,
    then missing values. *)

Module Sample.

Definition decimal : Type := Z * nat.

Definition parse_decimal (s : string) : option decimal :=
  match PyStr.split "." s with
  | [whole] => z ← PyStr.int whole; Some (z, 0%nat)
  | [whole; frac] =>
      _ ← PyStr.int whole;
      _ ← PyStr.int frac;
      Some (PyStr.digits_value 0 (whole +:+ frac), String.length frac)
  | _ => None
  end.

Definition decimal_leb (x y : decimal) : bool :=
  x.1 * 10 ^ Z.of_nat y.2 <=? y.1 * 10 ^ Z.of_nat x.2.

Definition str_leb (s t : string) : bool :=
  match String.compare s t with Gt => false | _ => true end.

Definition cell_leb (a b : pyval decimal) : bool :=
  match a, b with
  | _, VNone => true
  | VNone, _ => false
  | VInt x, VInt y => x <=? y
  | VInt _, _ => true
  | _, VInt _ => false
  | VFloat x, VFloat y => decimal_leb x y
  | VFloat _, _ => true
  | _, VFloat _ => false
  | VStr s, VStr t => str_leb s t
  end.

Lemma decimal_leb_total (x y : decimal) :
  decimal_leb x y = true ∨ decimal_leb y x = true.
Proof. unfold decimal_leb. rewrite !Z.leb_le. lia. Qed.

Lemma decimal_leb_trans (x y z : decimal) :
  decimal_leb x y = true → decimal_leb y z = true → decimal_leb x z = true.
Proof.
  unfold decimal_leb. rewrite !Z.leb_le.
  destruct x as [a i], y as [b j], z as [c k]; simpl.
  assert (0 < 10 ^ Z.of_nat i) by (apply Z.pow_pos_nonneg; lia).
  assert (0 < 10 ^ Z.of_nat j) by (apply Z.pow_pos_nonneg; lia).
  assert (0 < 10 ^ Z.of_nat k) by (apply Z.pow_pos_nonneg; lia).
  intros Hxy Hyz.
  apply (Z.mul_le_mono_pos_r _ _ (10 ^ Z.of_nat j)); [done|]. nia.
Qed.

Lemma str_leb_total (s t : string) : str_leb s t = true ∨ str_leb t s = true.
Proof.
  unfold str_leb. rewrite (String.compare_antisym s t).
  destruct (String.compare t s); simpl; auto.
Qed.

Lemma str_leb_trans (s t u : string) :
  str_leb s t = true → str_leb t u = true → str_leb s u = true.
Proof.
  intros Hst Htu.
  pose proof (String.le_po) as [[_ Htrans] _].
  specialize (Htrans s t u). unfold String.le, String.leb in Htrans.
  unfold str_leb in *.
  destruct (String.compare s t), (String.compare t u), (String.compare s u);
    simpl in *; try done; exfalso; by apply Htrans.
Qed.

Lemma cell_leb_total (a b : pyval decimal) :
  cell_leb a b = true ∨ cell_leb b a = true.
Proof.
  destruct a, b; simpl; auto using decimal_leb_total, str_leb_total.
  rewrite !Z.leb_le. lia.
Qed.

Lemma cell_leb_trans (a b c : pyval decimal) :
  cell_leb a b = true → cell_leb b c = true → cell_leb a c = true.
Proof.
  destruct a, b, c; simpl; try done;
    eauto using decimal_leb_trans, str_leb_trans.
  rewrite !Z.leb_le. lia.
Qed.

Definition runtime : PyRuntime :=
  {| pyfloat := decimal; py_float := parse_decimal |}.

#[local] Existing Instance runtime.

Definition pandas : @Pandas runtime :=
  {| scalar := string;
     scalar_float := parse_decimal;
     scalar_str := id;
     csv_text := option (DataFrame decimal);
     to_csv := Some;
     read_csv := λ content,
       match content with
       | Some df => Returned df
       | None => Raised (Exn EmptyDataError "No columns to parse from file")
       end;
     val_leb := cell_leb;
     val_leb_total := cell_leb_total;
     val_leb_trans := cell_leb_trans |}.

(** A file system whose names hold at most 255 bytes: [stat] of a longer
    name raises [OSError] with [ENAMETOOLONG]. *)
Definition stat_error (name : string) : option exn :=
  if (255 <? String.length name)%nat
  then Some (Exn OSError "[Errno 36] File name too long")
  else None.

(** Sample files.  [nl] is the line end; a timing file is given by the
    lines of its text and by the frame [read_csv] makes of them, a
    counter dump by what iterating over it yields. *)
Definition nl : string := String (ascii_of_nat 10) EmptyString.

#[local] Existing Instance pandas.

Definition timing (label time : string) : file :=
  File (Lines ["query,time" +:+ nl; label +:+ "," +:+ time +:+ nl] None)
       (Returned [[label : scalar; time : scalar]]).

Definition counters (f : text_file) : file :=
  File f (Raised (Exn ParserError "Error tokenizing data")).

(** The directory of the end-to-end scenario, with one more [.csv] file
    whose name is not of the pattern. *)
Definition m1_gcc9 : directory :=
  Directory "/bench/m1_gcc9" "m1_gcc9"
    {[ "r1_5h_t4.csv" := timing "Q5" "123.4";
       "r1_5h_t4.data" := counters (Lines ["42.0;ns;cycles" +:+ nl] None);
       "run_14_t8.csv" := timing "Q14" "7.5" ]}
    stat_error.

(** A timing file whose stem goes on after the thread count. *)
Definition with_suffix : directory :=
  Directory "/bench/m1_gcc9" "m1_gcc9"
    {[ "r1_5h_t4x.csv" := timing "Q5" "123.4" ]}
    stat_error.

(** A counter dump with metrics named like base columns, next to a run
    without a dump. *)
Definition with_named_metrics : directory :=
  Directory "/bench/m1_gcc9" "m1_gcc9"
    {[ "r1_5h_t4.csv" := timing "Q5" "123.4";
       "r1_5h_t4.data" :=
         counters (Lines ["99.0;ns;time" +:+ nl;
                          "<not supported>;;machine" +:+ nl;
                          "7;;repetition" +:+ nl] None);
       "r2_5h_t4.csv" := timing "Q5" "120.0" ]}
    stat_error.

(** Three runs, listed in an order that is not the sorted one. *)
Definition three_runs : directory :=
  Directory "/bench/m1_gcc9" "m1_gcc9"
    {[ "r2_5h_t4.csv" := timing "Q5" "120.0";
       "r1_5h_t16.csv" := timing "Q5" "123.4";
       "r1_12v_t8.csv" := timing "Q12" "60.25" ]}
    stat_error.

(** A directory without a run. *)
Definition no_runs : directory :=
  Directory "/bench/m1_gcc9" "m1_gcc9"
    {[ "run_14_t8.csv" := timing "Q14" "7.5";
       "notes.txt" := counters (Lines ["nothing" +:+ nl] None) ]}
    stat_error.

(** A counter dump whose second chunk cannot be decoded. *)
Definition half_read : text_file :=
  Lines ["1.5;ns;cycles" +:+ nl]
        (Some (Exn UnicodeDecodeError "'utf-8' codec can't decode byte 0xff")).

(** A world without an output file, and one whose output file holds a
    table. *)
Definition fresh : world := World [] None.

Definition with_output (t : table) : world := World [] (Some (Some t)).

(** The rows the runs above give. *)
Definition run_row (repetition query : Z) (eng : ascii) (threads : Z)
    (label : string) (time : decimal) : row :=
  row_literal "m1" "gcc9" repetition query eng threads (Some label) (Some time).

Definition three_runs_table : table :=
  pd_DataFrame [run_row 1 5 "h" 16 "Q5" (1234, 1%nat);
                run_row 1 12 "v" 8 "Q12" (6025, 2%nat);
                run_row 2 5 "h" 4 "Q5" (1200, 1%nat)].

Definition named_metrics_row : row :=
  update (run_row 1 5 "h" 4 "Q5" (1234, 1%nat))
    {[ "time" := Some (990, 1%nat);
       "machine" := None;
       "repetition" := Some (7, 0%nat) ]}.

(** A table written by an earlier run on another machine. *)
Definition earlier_table : table :=
  pd_DataFrame [row_literal "m0" "clang" 1 5 "h" 4 (Some "Q5")
                  (Some (1300, 1%nat))].

(** The directory name of the spec's example, with one run. *)
Definition nodeA : directory :=
  Directory "/bench/nodeA_clangO3_extra" "nodeA_clangO3_extra"
    {[ "r2_14h_t8.csv" := timing "Q14" "7.5" ]}
    stat_error.

Definition append_to (d : directory) : args := Args d "combined_results.csv" true.
Definition write_new (d : directory) : args := Args d "combined_results.csv" false.

End Sample.

(** ** Further notions and samples *)

(** [s.count(c)] for one character. *)
Fixpoint count_char (c : ascii) (s : string) : nat :=
  match s with
  | EmptyString => 0%nat
  | String a s' => if Ascii.eqb a c then S (count_char c s') else count_char c s'
  end.

(** What a line records for its cleaned value field [val_str]. *)
Definition recorded `{PyRuntime} (val_str : string) : option pyfloat :=
  if decide (val_str = "<not supported>" ∨ val_str = "") then None
  else py_float val_str.

(** [c * n] for one character. *)
Fixpoint repeat_char (c : ascii) (n : nat) : string :=
  match n with
  | O => EmptyString
  | S n' => String c (repeat_char c n')
  end.

(** The [.csv] files of a directory whose stem the pattern matches. *)
Definition matched_csv `{Pandas} (d : directory) : list (string * file) :=
  filter (λ cf, is_Some (filename_re_match (PyPath.stem cf.1))) (glob_csv d).

Module Cases.

#[local] Existing Instance Sample.runtime.
#[local] Existing Instance Sample.pandas.

(** A directory whose name has no underscore. *)
Definition results : directory :=
  Directory "/bench/results" "results"
    {[ "r1_5h_t4.csv" := Sample.timing "Q5" "123.4" ]}
    Sample.stat_error.

(** A run whose counter dump cannot be opened. *)
Definition locked_dump : directory :=
  Directory "/bench/m1_gcc9" "m1_gcc9"
    {[ "r1_5h_t4.csv" := Sample.timing "Q5" "123.4";
       "r1_5h_t4.data" :=
         Sample.counters (OpenFails (Exn OSError "Permission denied")) ]}
    Sample.stat_error.

(** A run with 244 digits of thread count: the name of its timing file
    has the 255 bytes a name may have, the name of its companion one
    more. *)
Definition long_csv : string := "r1_5h_t" +:+ repeat_char "4" 244 +:+ ".csv".

Definition long_name : directory :=
  Directory "/bench/m1_gcc9" "m1_gcc9"
    {[ long_csv := Sample.timing "Q5" "123.4" ]}
    Sample.stat_error.

(** A counter dump that names one metric twice, with a line of two
    fields in between. *)
Definition twice : list string :=
  ["1.5;ns;'cycles'" +:+ Sample.nl;
   "9;ns" +:+ Sample.nl;
   " 2.5 ; ns ; cycles " +:+ Sample.nl;
   "7;;misses" +:+ Sample.nl].

(** Lines without a third field. *)
Definition short_lines : list string :=
  ["1.5;ns" +:+ Sample.nl; Sample.nl; "Performance counter stats"].

(** An output file without any text. *)
Definition empty_output : world := World [] (Some None).

End Cases.

(** A second instance, whose output file may hold any text: text that is
    no table makes [read_csv] raise [ParserError], no text at all
    [EmptyDataError]. *)
Module Garbled.

Inductive content :=
  | Written (df : DataFrame Sample.decimal)
  | Text (s : string).

#[local] Existing Instance Sample.runtime.

Definition pandas : @Pandas Sample.runtime :=
  {| scalar := string;
     scalar_float := Sample.parse_decimal;
     scalar_str := id;
     csv_text := content;
     to_csv := Written;
     read_csv := λ c,
       match c with
       | Written df => Returned df
       | Text EmptyString =>
           Raised (Exn EmptyDataError "No columns to parse from file")
       | Text _ => Raised (Exn ParserError "Error tokenizing data")
       end;
     val_leb := Sample.cell_leb;
     val_leb_total := Sample.cell_leb_total;
     val_leb_trans := Sample.cell_leb_trans |}.

#[local] Existing Instance pandas.

Definition one_run : directory :=
  Directory "/bench/m1_gcc9" "m1_gcc9"
    {[ "r1_5h_t4.csv" :=
         File (Lines ["query,time" +:+ Sample.nl; "Q5,123.4" +:+ Sample.nl] None)
              (Returned [["Q5" : scalar; "123.4" : scalar]]) ]}
    Sample.stat_error.

Definition one_run_table : table :=
  pd_DataFrame [row_literal "m1" "gcc9" 1 5 "h" 4 (Some "Q5")
                  (Some (1234, 1%nat))].

Definition garbled_output : world := World [] (Some (Text "<html>")).

End Garbled.

(** A third instance, which reads the header of a file as pandas does: a
    header field without text names its column [Unnamed: i], [i] being
    the position of the field.  It is used on tables whose nameless
    column is the last one. *)
Module Unnamed.

#[local] Existing Instance Sample.runtime.

Definition rename_key (old new : string)
    (r : gmap string (pyval Sample.decimal)) : gmap string (pyval Sample.decimal) :=
  match r !! old with
  | Some v => <[new := v]> (delete old r)
  | None => r
  end.

Definition read_header (df : DataFrame Sample.decimal) : DataFrame Sample.decimal :=
  if decide (EmptyString ∈ columns df) then
    let name := "Unnamed: " +:+ pretty (size (columns df) - 1)%nat in
    Frame ({[ name ]} ∪ columns df ∖ {[ EmptyString ]})
          (rename_key EmptyString name <$> rows df)
  else df.

Definition pandas : @Pandas Sample.runtime :=
  {| scalar := string;
     scalar_float := Sample.parse_decimal;
     scalar_str := id;
     csv_text := option (DataFrame Sample.decimal);
     to_csv := Some;
     read_csv := λ content,
       match content with
       | Some df => Returned (read_header df)
       | None => Raised (Exn EmptyDataError "No columns to parse from file")
       end;
     val_leb := Sample.cell_leb;
     val_leb_total := Sample.cell_leb_total;
     val_leb_trans := Sample.cell_leb_trans |}.

#[local] Existing Instance pandas.

(** A run whose counter dump has a line of three fields without text. *)
Definition nameless_metric : directory :=
  Directory "/bench/m1_gcc9" "m1_gcc9"
    {[ "r1_5h_t4.csv" :=
         File (Lines ["query,time" +:+ Sample.nl; "Q5,123.4" +:+ Sample.nl] None)
              (Returned [["Q5" : scalar; "123.4" : scalar]]);
       "r1_5h_t4.data" :=
         File (Lines [";;" +:+ Sample.nl] None)
              (Raised (Exn ParserError "Error tokenizing data")) ]}
    Sample.stat_error.




Definition fresh : world := World [] None.

Definition write_new : args := Args nameless_metric "combined_results.csv" false.
Definition append_to : args := Args nameless_metric "combined_results.csv" true.

End Unnamed.

(** * What the script guarantees *)

(** ** Strings *)

Lemma app_cons (c : ascii) (s t : string) :
  String c s +:+ t = String c (s +:+ t).
Proof. reflexivity. Qed.

Lemma app_empty_l (s : string) : EmptyString +:+ s = s.
Proof. reflexivity. Qed.

Lemma app_empty_r (s : string) : s +:+ EmptyString = s.
Proof. induction s as [|c s IH]; [done|]. by rewrite app_cons, IH. Qed.

Lemma app_assoc_str (s t u : string) : (s +:+ t) +:+ u = s +:+ (t +:+ u).
Proof. induction s as [|c s IH]; [done|]. by rewrite !app_cons, IH. Qed.

Lemma chars_app (s t : string) :
  PyStr.chars (s +:+ t) = PyStr.chars s ++ PyStr.chars t.
Proof. induction s as [|c s IH]; [done|]. rewrite app_cons. simpl. by f_equal. Qed.

Lemma all_app (f : ascii → bool) (s t : string) :
  PyStr.all f (s +:+ t) = PyStr.all f s && PyStr.all f t.
Proof. unfold PyStr.all. by rewrite chars_app, forallb_app. Qed.

(** [lstrip] removes a run of characters of the set from the left and
    stops at the first character outside it; [rstrip] does so from the
    right. *)
Lemma lstrip_chars_spec (f : ascii → bool) (s : string) :
  ∃ lead, s = lead +:+ PyStr.lstrip_chars f s ∧ PyStr.all f lead = true ∧
          ∀ c, head (PyStr.chars (PyStr.lstrip_chars f s)) = Some c → f c = false.
Proof.
  induction s as [|c s (lead & Heq & Hall & Hhd)]; simpl.
  - by exists EmptyString.
  - destruct (f c) eqn:Hc.
    + exists (String c lead). rewrite app_cons, <-Heq. split; [done|].
      split; [|done]. unfold PyStr.all in *. simpl. by rewrite Hc.
    + exists EmptyString. repeat split; simpl. by intros ? [= <-].
Qed.

Lemma rstrip_chars_spec (f : ascii → bool) (s : string) :
  ∃ trail, s = PyStr.rstrip_chars f s +:+ trail ∧ PyStr.all f trail = true ∧
           ∀ c, last (PyStr.chars (PyStr.rstrip_chars f s)) = Some c → f c = false.
Proof.
  induction s as [|c s (trail & Heq & Hall & Hlast)]; simpl.
  - by exists EmptyString.
  - destruct (PyStr.rstrip_chars f s) as [|d r] eqn:Hr.
    + destruct (f c) eqn:Hc.
      * exists (String c trail). simpl in Heq. subst s. repeat split; [|done].
        unfold PyStr.all in *. simpl. by rewrite Hc.
      * exists trail. simpl in Heq. subst s. repeat split; [done|].
        simpl. by intros ? [= <-].
    + exists trail. rewrite app_cons, <-Heq. repeat split; [done|].
      simpl in *. by destruct (PyStr.chars r).
Qed.

Lemma replace_by_nothing (old : ascii) (s : string) :
  PyStr.chars (PyStr.replace old EmptyString s)
  = filter (λ c, c ≠ old) (PyStr.chars s).
Proof.
  induction s as [|c s IH]; [done|]. simpl.
  destruct (Ascii.eqb_spec c old) as [->|Hne].
  - rewrite app_empty_l, IH. by rewrite filter_cons_False by (by intros ?).
  - simpl. by rewrite IH, filter_cons_True.
Qed.

(** What [strip] leaves: the text between the leading and the trailing run
    of characters of the set. *)
Lemma strip_chars_spec (f : ascii → bool) (s : string) :
  ∃ lead trail,
    s = lead +:+ PyStr.strip_chars f s +:+ trail ∧
    PyStr.all f lead = true ∧ PyStr.all f trail = true ∧
    (∀ c, head (PyStr.chars (PyStr.strip_chars f s)) = Some c → f c = false) ∧
    (∀ c, last (PyStr.chars (PyStr.strip_chars f s)) = Some c → f c = false).
Proof.
  unfold PyStr.strip_chars.
  destruct (lstrip_chars_spec f s) as (lead & Hs & Hlead & Hhd).
  destruct (rstrip_chars_spec f (PyStr.lstrip_chars f s))
    as (trail & Hl & Htrail & Hlast).
  exists lead, trail. repeat split; [congruence|done..| |done].
  intros c Hc. apply Hhd. rewrite Hl, chars_app.
  by destruct (PyStr.chars (PyStr.rstrip_chars f (PyStr.lstrip_chars f s))).
Qed.

(** ** The filename pattern *)

Lemma option_bind_Some {A B} (x : A) (k : A → option B) : Some x ≫= k = k x.
Proof. reflexivity. Qed.

Lemma span_spec (f : ascii → bool) (s : string) :
  s = (span f s).1 +:+ (span f s).2 ∧ PyStr.all f (span f s).1 = true ∧
  ∀ c, head (PyStr.chars (span f s).2) = Some c → f c = false.
Proof.
  induction s as [|c s (Heq & Hall & Hhd)]; simpl; [done|].
  destruct (f c) eqn:Hc.
  - destruct (span f s) as [d rest]; simpl in *. rewrite app_cons, <-Heq.
    repeat split; [|done]. unfold PyStr.all in *. simpl. by rewrite Hc.
  - simpl. repeat split. by intros ? [= <-].
Qed.

(** A run of characters of the set, followed by text that does not go on
    with one, is what [span] cuts off. *)
Lemma span_app (f : ascii → bool) (d rest : string) :
  PyStr.all f d = true →
  (∀ c, head (PyStr.chars rest) = Some c → f c = false) →
  span f (d +:+ rest) = (d, rest).
Proof.
  intros Hd Hrest. induction d as [|c d IH].
  - rewrite app_empty_l. destruct rest as [|c rest]; [done|]. simpl.
    by rewrite (Hrest c).
  - unfold PyStr.all in Hd. simpl in Hd. apply andb_true_iff in Hd as [Hc Hd].
    rewrite app_cons. simpl. by rewrite Hc, (IH Hd).
Qed.

Lemma re_digits_spec (s d rest : string) :
  re_digits s = Some (d, rest) ↔
  s = d +:+ rest ∧ is_number d ∧ no_digit_ahead rest.
Proof.
  unfold re_digits, is_number, no_digit_ahead. split.
  - destruct (span_spec PyStr.isdigit s) as (Heq & Hall & Hhd).
    destruct (span PyStr.isdigit s) as [[|c d'] rest']; [done|].
    intros [= <- <-]. done.
  - intros (-> & [Hne Hall] & Hhd). rewrite span_app by done.
    by destruct d.
Qed.

Lemma drop_prefix_spec (p s rest : string) :
  PyStr.drop_prefix p s = Some rest ↔ s = p +:+ rest.
Proof.
  revert s. induction p as [|a p IH]; intros s; simpl.
  - rewrite app_empty_l. naive_solver.
  - destruct s as [|b s]; [done|]. rewrite app_cons.
    destruct (Ascii.eqb_spec a b) as [->|Hne]; [|naive_solver].
    rewrite IH. naive_solver.
Qed.

Lemma drop_prefix_app (p rest : string) :
  PyStr.drop_prefix p (p +:+ rest) = Some rest.
Proof. by apply drop_prefix_spec. Qed.

Lemma re_digits_app (d rest : string) :
  is_number d → no_digit_ahead rest → re_digits (d +:+ rest) = Some (d, rest).
Proof. intros. by apply re_digits_spec. Qed.

Lemma re_engine_spec (s : string) (c : ascii) (rest : string) :
  re_engine s = Some (c, rest) ↔
  s = String c rest ∧ (c = "h"%char ∨ c = "v"%char).
Proof.
  destruct s as [|b s]; simpl; [naive_solver|].
  destruct (Ascii.eqb_spec b "h"), (Ascii.eqb_spec b "v"); naive_solver.
Qed.

Lemma pattern_string_app (rep q_num : string) (eng : ascii)
    (threads rest : string) :
  pattern_string rep q_num eng threads +:+ rest
  = "r" +:+ (rep +:+ ("_" +:+ (q_num +:+
      String eng ("_t" +:+ (threads +:+ rest))))).
Proof.
  unfold pattern_string.
  by rewrite !app_assoc_str, (app_cons eng), app_assoc_str.
Qed.

(** [filename_re.match(stem)] succeeds with the groups [rep], [q_num],
    [eng], [threads] exactly when the stem starts with the pattern spelt
    with these groups and the last group takes every digit there is. *)
Lemma filename_re_match_spec (stem rep q_num : string) (eng : ascii)
    (threads : string) :
  filename_re_match stem = Some (rep, q_num, eng, threads) ↔
  ∃ rest, stem = pattern_string rep q_num eng threads +:+ rest ∧
          is_number rep ∧ is_number q_num ∧
          (eng = "h"%char ∨ eng = "v"%char) ∧
          is_number threads ∧ no_digit_ahead rest.
Proof.
  unfold filename_re_match. split.
  - intros Hm.
    apply bind_Some in Hm as (s1 & H1 & Hm).
    apply bind_Some in Hm as ([rep' s2] & H2 & Hm).
    apply bind_Some in Hm as (s3 & H3 & Hm).
    apply bind_Some in Hm as ([q' s4] & H4 & Hm).
    apply bind_Some in Hm as ([e' s5] & H5 & Hm).
    apply bind_Some in Hm as (s6 & H6 & Hm).
    apply bind_Some in Hm as ([t' s7] & H7 & Hm).
    injection Hm as -> -> -> ->.
    apply drop_prefix_spec in H1, H3, H6.
    apply re_digits_spec in H2 as (-> & ? & _), H4 as (-> & ? & _),
      H7 as (-> & ? & ?).
    apply re_engine_spec in H5 as [-> ?].
    exists s7. rewrite pattern_string_app. by subst.
  - intros (rest & -> & Hrep & Hq & Heng & Hthr & Hrest).
    rewrite pattern_string_app.
    rewrite drop_prefix_app, option_bind_Some.
    rewrite re_digits_app, option_bind_Some; [|done|by intros c [= <-]].
    rewrite drop_prefix_app, option_bind_Some.
    rewrite re_digits_app, option_bind_Some; [|done|]; last first.
    { intros c [= <-]. by destruct Heng as [-> | ->]. }
    rewrite (proj2 (re_engine_spec _ eng _)), option_bind_Some by done.
    rewrite drop_prefix_app, option_bind_Some.
    by rewrite re_digits_app, option_bind_Some.
Qed.

Lemma is_number_app (d e : string) :
  is_number d → PyStr.all PyStr.isdigit e = true → is_number (d +:+ e).
Proof.
  intros [Hne Hall] He. split.
  - destruct d; [done|]. by rewrite app_cons.
  - by rewrite all_app, Hall, He.
Qed.

(** The match succeeds exactly on the stems that start with a string of
    the pattern. *)
Lemma filename_re_match_is_Some (stem : string) :
  is_Some (filename_re_match stem) ↔ stem_starts_with_pattern stem.
Proof.
  split.
  - intros [[[[rep q] eng] thr] Hm].
    apply filename_re_match_spec in Hm as (rest & ? & ? & ? & ? & ? & ?).
    by exists rep, q, eng, thr, rest.
  - intros (rep & q & eng & thr & rest & Hrep & Hq & Heng & Hthr & ->).
    destruct (span_spec PyStr.isdigit rest) as (Hrest & Hall & Hhd).
    exists (rep, q, eng, thr +:+ (span PyStr.isdigit rest).1).
    apply filename_re_match_spec. exists (span PyStr.isdigit rest).2.
    repeat split; try done; try apply Hrep; try apply Hq;
      try by apply is_number_app.
    rewrite !pattern_string_app, app_assoc_str. by rewrite <-Hrest.
Qed.

Lemma filename_re_match_None (stem : string) :
  filename_re_match stem = None ↔ ¬ stem_starts_with_pattern stem.
Proof.
  rewrite <-filename_re_match_is_Some, <-eq_None_not_Some. done.
Qed.

(** A stem that is a string of the pattern, and nothing more, is matched
    with its own groups. *)
Lemma stem_has_pattern_match (stem : string) :
  stem_has_pattern stem ↔
  ∃ rep q_num eng threads,
    filename_re_match stem = Some (rep, q_num, eng, threads) ∧
    stem = pattern_string rep q_num eng threads.
Proof.
  split.
  - intros (rep & q & eng & thr & Hrep & Hq & Heng & Hthr & ->).
    exists rep, q, eng, thr. split; [|done].
    apply filename_re_match_spec. exists EmptyString.
    by rewrite app_empty_r.
  - intros (rep & q & eng & thr & Hm & Hstem).
    apply filename_re_match_spec in Hm as (rest & _ & ? & ? & ? & ? & _).
    by exists rep, q, eng, thr.
Qed.

(** [int] reads every group of a match. *)
Lemma int_of_number (d : string) :
  is_number d → PyStr.int d = Some (PyStr.digits_value 0 d).
Proof. intros [Hne Hall]. unfold PyStr.int. rewrite Hall. by destruct d. Qed.

(** ** Running the script *)

Section ScriptFacts.
Context `{Pandas}.

Lemma printed_nil (w : world) : printed w [] = w.
Proof. destruct w. unfold printed. simpl. by rewrite app_nil_r. Qed.

Lemma printed_app (w : world) (l1 l2 : list string) :
  printed (printed w l1) l2 = printed w (l1 ++ l2).
Proof. unfold printed. simpl. by rewrite app_assoc. Qed.

Lemma parse_perf_run (file_path : string) (f : text_file) (w : world) :
  parse_perf_semicolon_format file_path f w
  = (Returned (perf_metrics f), printed w (perf_log file_path f)).
Proof.
  unfold parse_perf_semicolon_format.
  destruct f as [e|ls [e|]]; simpl; try done.
  unfold bind, ret. simpl. by rewrite printed_nil.
Qed.

Lemma parse_main_csv_run (f : file) (w : world) :
  parse_main_csv f w = (Returned (csv_fields f), w).
Proof.
  unfold parse_main_csv, csv_fields, try_except, bind, lift, ret.
  destruct (as_frame f) as [[|r rest]|e]; simpl; try done.
  destruct r as [|y [|x r]]; simpl; try done.
  unfold to_float. by destruct (scalar_float x).
Qed.

Lemma path_exists_Returned (d : directory) (name : string) (found : bool) :
  path_exists d name = Returned found ↔
  dir_stat_error d name = None ∧
  found = bool_decide (is_Some (dir_files d !! name)).
Proof.
  unfold path_exists. destruct (dir_stat_error d name); split.
  - done.
  - by intros [? _].
  - by intros [= <-].
  - by intros [_ ->].
Qed.

Lemma path_exists_Raised (d : directory) (name : string) (e : exn) :
  path_exists d name = Raised e ↔ dir_stat_error d name = Some e.
Proof.
  unfold path_exists. destruct (dir_stat_error d name); split; congruence.
Qed.

(** One turn of the loop ends with the exception of the existence test,
    or adds the row of the file, if it has one. *)
Lemma scan_file_run (d : directory) (machine_name compiler : string)
    (csv_file : string * file) (rs : list row) (w : world) :
  scan_file d machine_name compiler csv_file rs w
  = match stat_error_of d csv_file with
    | Some e => (Raised e, w)
    | None =>
        (Returned (rs ++ option_list (row_of d machine_name compiler csv_file)),
         printed w (log_of d csv_file))
    end.
Proof.
  unfold scan_file, stat_error_of, row_of, log_of.
  destruct (filename_re_match (PyPath.stem csv_file.1))
    as [[[[rep q] eng] thr]|] eqn:Hm.
  - apply filename_re_match_spec in Hm as (rest & _ & Hrep & Hq & _ & Hthr & _).
    unfold bind at 1. rewrite parse_main_csv_run.
    destruct (csv_fields csv_file.2) as [t ql] eqn:Hcsv.
    unfold companion_metrics, companion_log, py_int, path_exists, open_text.
    rewrite !int_of_number by done.
    unfold bind, lift, ret.
    destruct (dir_stat_error d _) as [e|]; [done|].
    destruct (dir_files d !! _) as [pf|]; simpl.
    + by rewrite parse_perf_run.
    + by rewrite printed_nil.
  - unfold ret. simpl. by rewrite app_nil_r, printed_nil.
Qed.

Lemma for_each_scan_run (d : directory) (machine_name compiler : string)
    (files : list (string * file)) (rs : list row) (w : world) :
  for_each files (scan_file d machine_name compiler) rs w
  = ((scan_files d machine_name compiler files rs).1,
     printed w (scan_files d machine_name compiler files rs).2).
Proof.
  revert rs w. induction files as [|x files IH]; intros rs w; simpl.
  - unfold ret. by rewrite printed_nil.
  - unfold bind. rewrite scan_file_run.
    destruct (stat_error_of d x) as [e|]; simpl.
    + by rewrite printed_nil.
    + by rewrite IH, printed_app.
Qed.

(** When no existence test raises, every turn comes to its end. *)
Lemma scan_files_reachable (d : directory) (machine_name compiler : string)
    (files : list (string * file)) (rs : list row) :
  Forall (λ csv_file, stat_error_of d csv_file = None) files →
  scan_files d machine_name compiler files rs
  = (Returned (rs ++ omap (row_of d machine_name compiler) files),
     flat_map (log_of d) files).
Proof.
  intros Hok. revert rs. induction Hok as [|x files Hx _ IH]; intros rs; simpl.
  - by rewrite app_nil_r.
  - rewrite Hx, IH. simpl. rewrite <-app_assoc. do 2 f_equal.
    by destruct (row_of d machine_name compiler x).
Qed.

Lemma scan_files_Returned (d : directory) (machine_name compiler : string)
    (files : list (string * file)) (rs rs' : list row) :
  (scan_files d machine_name compiler files rs).1 = Returned rs' →
  Forall (λ csv_file, stat_error_of d csv_file = None) files.
Proof.
  revert rs. induction files as [|x files IH]; intros rs; simpl; [done|].
  destruct (stat_error_of d x) as [e|] eqn:Hx; simpl; [done|].
  intros Hr. constructor; [done|]. by eapply IH.
Qed.

Lemma scan_files_Raised (d : directory) (machine_name compiler : string)
    (files : list (string * file)) (rs : list row) (e : exn) :
  (scan_files d machine_name compiler files rs).1 = Raised e →
  ∃ csv_file, csv_file ∈ files ∧ stat_error_of d csv_file = Some e.
Proof.
  revert rs. induction files as [|x files IH]; intros rs; simpl; [done|].
  destruct (stat_error_of d x) as [e'|] eqn:Hx; simpl.
  - intros [= <-]. exists x. split; [left|done].
  - intros Hr. apply IH in Hr as (cf & Hcf & He).
    exists cf. split; [by right|done].
Qed.

Lemma scan_files_lines (d : directory) (machine_name compiler : string)
    (files : list (string * file)) (rs : list row) (line : string) :
  line ∈ (scan_files d machine_name compiler files rs).2 →
  ∃ csv_file, csv_file ∈ files ∧ line ∈ log_of d csv_file.
Proof.
  revert rs. induction files as [|x files IH]; intros rs; simpl.
  - by intros ?%elem_of_nil.
  - destruct (stat_error_of d x) as [e'|]; simpl; [by intros ?%elem_of_nil|].
    intros [Hx|Hr]%elem_of_app.
    + exists x. split; [left|done].
    + apply IH in Hr as (cf & Hcf & Hl). exists cf. split; [by right|done].
Qed.

(** [build_combined_dataframe] raises [IndexError] on a directory name
    without an underscore; otherwise it runs the turns of the loop over
    the listing and makes a table of their rows. *)
Lemma build_run (d : directory) (w : world) :
  build_combined_dataframe d w
  = match PyStr.split "_" (dir_name d) with
    | machine_name :: compiler :: _ =>
        let r := scan_files d machine_name compiler (glob_csv d) [] in
        (match r.1 with
         | Returned rs => Returned (pd_DataFrame rs)
         | Raised e => Raised e
         end,
         printed w r.2)
    | _ => (Raised (Exn IndexError "list index out of range"), w)
    end.
Proof.
  unfold build_combined_dataframe, bind, lift, index.
  destruct (PyStr.split "_" (dir_name d)) as [|m [|c pieces]]; simpl; try done.
  rewrite for_each_scan_run.
  by destruct (scan_files d m c (glob_csv d) []).1.
Qed.

(** What a returning scan tells: the name has two pieces, no existence
    test raised, and the table holds the rows of the files in the order
    of the listing. *)
Lemma build_Returned (d : directory) (w w' : world) (df : table) :
  build_combined_dataframe d w = (Returned df, w') →
  ∃ machine_name compiler pieces,
    PyStr.split "_" (dir_name d) = machine_name :: compiler :: pieces ∧
    companions_reachable d ∧
    df = pd_DataFrame (omap (row_of d machine_name compiler) (glob_csv d)) ∧
    w' = printed w (flat_map (log_of d) (glob_csv d)).
Proof.
  rewrite build_run.
  destruct (PyStr.split "_" (dir_name d)) as [|m [|c pieces]]; try done.
  cbn zeta.
  destruct (scan_files d m c (glob_csv d) []).1 as [rs|e] eqn:Hscan; [|done].
  pose proof (scan_files_Returned _ _ _ _ _ _ Hscan) as Hok.
  rewrite (scan_files_reachable _ m c _ [] Hok) in Hscan |- *.
  simpl in Hscan. injection Hscan as <-.
  intros [= <- <-]. by exists m, c, pieces.
Qed.

Lemma build_reachable (d : directory) (w : world)
    (machine_name compiler : string) (pieces : list string) :
  PyStr.split "_" (dir_name d) = machine_name :: compiler :: pieces →
  companions_reachable d →
  build_combined_dataframe d w
  = (Returned (pd_DataFrame (omap (row_of d machine_name compiler)
                               (glob_csv d))),
     printed w (flat_map (log_of d) (glob_csv d))).
Proof.
  intros Hpieces Hok. rewrite build_run, Hpieces. cbn zeta.
  by rewrite (scan_files_reachable _ _ _ _ [] Hok).
Qed.

End ScriptFacts.

(** ** Sorting *)

Section Sorting.
Context {A : Type} (leb : A → A → bool).
Hypothesis leb_total : ∀ x y, leb x y = true ∨ leb y x = true.
Hypothesis leb_trans : ∀ x y z, leb x y = true → leb y z = true → leb x z = true.

Lemma insert_sorted_perm (x : A) (l : list A) :
  Permutation (x :: l) (insert_sorted leb x l).
Proof using Type.
  induction l as [|y l IH]; simpl; [done|].
  destruct (leb x y); [done|].
  rewrite perm_swap. by constructor.
Qed.

Lemma stable_sort_perm (l : list A) : Permutation l (stable_sort leb l).
Proof using Type.
  induction l as [|x l IH]; simpl; [done|].
  etrans; [|apply insert_sorted_perm]. by constructor.
Qed.

Lemma insert_sorted_sorted (x : A) (l : list A) :
  StronglySorted (λ a b, leb a b = true) l →
  StronglySorted (λ a b, leb a b = true) (insert_sorted leb x l).
Proof using leb_total leb_trans.
  induction 1 as [|y l Hl IH Hy]; simpl.
  - repeat constructor.
  - destruct (leb x y) eqn:Hxy.
    + constructor; [by constructor|]. constructor; [done|].
      eapply Forall_impl; [exact Hy|]. intros z Hz. simpl in Hz. eauto.
    + constructor; [done|].
      eapply Permutation_Forall; [apply insert_sorted_perm|].
      constructor; [|done]. destruct (leb_total x y); congruence.
Qed.

Lemma stable_sort_sorted (l : list A) :
  StronglySorted (λ a b, leb a b = true) (stable_sort leb l).
Proof using leb_total leb_trans.
  induction l as [|x l IH]; simpl; [constructor|].
  by apply insert_sorted_sorted.
Qed.

End Sorting.

Lemma StronglySorted_mono {A} (R S : A → A → Prop) (l : list A) :
  (∀ x y, R x y → S x y) → StronglySorted R l → StronglySorted S l.
Proof.
  intros HRS. induction 1 as [|x l Hl IH Hx]; constructor; [done|].
  eapply Forall_impl; [exact Hx|]. intros y. apply HRS.
Qed.

(** ** Tables *)

Section TableFacts.
Context `{Pandas}.

Lemma row_leb_total (keys : list string) (r1 r2 : row) :
  row_leb keys r1 r2 = true ∨ row_leb keys r2 r1 = true.
Proof.
  induction keys as [|c keys IH]; simpl; [by left|].
  destruct (val_leb_total (cell r1 c) (cell r2 c)) as [Hab|Hba].
  - rewrite Hab. destruct (val_leb (cell r2 c) (cell r1 c)); [done|by left].
  - rewrite Hba. destruct (val_leb (cell r1 c) (cell r2 c)); [done|by right].
Qed.

Lemma row_leb_trans (keys : list string) (r1 r2 r3 : row) :
  row_leb keys r1 r2 = true → row_leb keys r2 r3 = true →
  row_leb keys r1 r3 = true.
Proof.
  induction keys as [|c keys IH]; simpl; [done|].
  destruct (val_leb (cell r1 c) (cell r2 c)) eqn:H12; [|done].
  destruct (val_leb (cell r2 c) (cell r3 c)) eqn:H23; [|by destruct (val_leb _ _)].
  rewrite (val_leb_trans _ _ _ H12 H23).
  destruct (val_leb (cell r2 c) (cell r1 c)) eqn:H21,
           (val_leb (cell r3 c) (cell r2 c)) eqn:H32,
           (val_leb (cell r3 c) (cell r1 c)) eqn:H31; try done.
  - intros _ _. by rewrite (val_leb_trans _ _ _ H31 H12) in H32.
  - intros _ _. by rewrite (val_leb_trans _ _ _ H23 H31) in H21.
  - intros _ _. by rewrite (val_leb_trans _ _ _ H23 H31) in H21.
Qed.

(** The comparison [sort_values] sorts with decides the order [row_le]. *)
Lemma row_leb_le (keys : list string) (r1 r2 : row) :
  row_leb keys r1 r2 = true ↔ row_le keys r1 r2.
Proof.
  induction keys as [|c keys IH]; simpl; [done|].
  unfold val_lt, val_eqv.
  destruct (val_leb (cell r1 c) (cell r2 c)),
           (val_leb (cell r2 c) (cell r1 c)); naive_solver.
Qed.

Lemma sort_values_rows (keys : list string) (df sorted : table) :
  sort_values keys df = Returned sorted →
  columns sorted = columns df ∧
  Permutation (rows df) (rows sorted) ∧
  StronglySorted (row_le keys) (rows sorted).
Proof.
  unfold sort_values. destruct (List.find _ keys); [done|].
  intros [= <-]. simpl. split; [done|]. split.
  - apply stable_sort_perm.
  - eapply StronglySorted_mono;
      [|apply (stable_sort_sorted (row_leb keys));
        eauto using row_leb_total, row_leb_trans].
    intros r1 r2. simpl. apply row_leb_le.
Qed.

Lemma sort_values_returns (keys : list string) (df : table) :
  Forall (λ c, c ∈ columns df) keys →
  ∃ sorted, sort_values keys df = Returned sorted.
Proof.
  intros Hkeys. unfold sort_values.
  destruct (List.find _ keys) as [c|] eqn:Hfind; [|by eexists].
  apply find_some in Hfind as [Hin Hc]. apply bool_decide_eq_true in Hc.
  rewrite Forall_forall in Hkeys. destruct Hc. apply Hkeys.
  by apply list_elem_of_In.
Qed.

End TableFacts.

(** ** Rows and the entry point *)

Section MainFacts.
Context `{Pandas}.

Lemma update_lookup_Some (r : row) (perf_data : gmap string (option pyfloat))
    (k : string) (v : option pyfloat) :
  perf_data !! k = Some v → update r perf_data !! k = Some (opt_float v).
Proof.
  intros Hk. unfold update. apply lookup_union_Some_l.
  by rewrite lookup_fmap, Hk.
Qed.

Lemma update_lookup_None (r : row) (perf_data : gmap string (option pyfloat))
    (k : string) :
  perf_data !! k = None → update r perf_data !! k = r !! k.
Proof.
  intros Hk. unfold update. apply lookup_union_r.
  by rewrite lookup_fmap, Hk.
Qed.

Lemma update_dom (r : row) (perf_data : gmap string (option pyfloat)) :
  dom r ⊆ dom (update r perf_data).
Proof. unfold update. rewrite dom_union_L. set_solver. Qed.

Lemma row_literal_dom (machine_name compiler : string) (repetition query : Z)
    (eng : ascii) (threads : Z) (query_label : option string)
    (execution_time : option pyfloat) :
  dom (row_literal machine_name compiler repetition query eng threads
         query_label execution_time) = list_to_set base_columns.
Proof.
  unfold row_literal, base_columns.
  rewrite !dom_insert_L, dom_singleton_L. simpl. set_solver.
Qed.

Lemma row_of_base_columns (d : directory) (machine_name compiler : string)
    (csv_file : string * file) (r : row) (k : string) :
  row_of d machine_name compiler csv_file = Some r →
  k ∈ base_columns → k ∈ dom r.
Proof.
  unfold row_of. destruct (filename_re_match _) as [[[[rep q] eng] thr]|]; [|done].
  intros [= <-] Hk. apply update_dom. rewrite row_literal_dom.
  by apply elem_of_list_to_set.
Qed.

(** Whatever [build_combined_dataframe] returns has the columns its rows
    hold, every row holds the eight base columns, and the output file is
    as it was. *)
Lemma build_returns (d : directory) (w w' : world) (df : table) :
  build_combined_dataframe d w = (Returned df, w') →
  df = pd_DataFrame (rows df) ∧
  Forall (λ r : row, ∀ k, k ∈ base_columns → k ∈ dom r) (rows df) ∧
  output_file w' = output_file w.
Proof.
  intros (m & c & pieces & _ & _ & -> & ->)%build_Returned.
  simpl. repeat split.
  apply Forall_forall. intros r Hr k Hk.
  apply list_elem_of_omap in Hr as (f & _ & Hf).
  by eapply row_of_base_columns.
Qed.

(** The table returned does not depend on what was printed or written
    before. *)
Lemma build_again (d : directory) (w w' v : world) (df : table) :
  build_combined_dataframe d w = (Returned df, w') →
  ∃ v', build_combined_dataframe d v = (Returned df, v').
Proof.
  intros (m & c & pieces & Hpieces & Hok & -> & _)%build_Returned.
  eexists. by eapply build_reachable.
Qed.

Lemma pd_DataFrame_columns (rs : list row) (r : row) (k : string) :
  r ∈ rs → k ∈ dom r → k ∈ columns (pd_DataFrame rs).
Proof.
  intros Hr Hk. simpl. apply elem_of_union_list. exists (dom r).
  split; [|done]. apply list_elem_of_fmap. by exists r.
Qed.

Lemma build_sort_key (d : directory) (w w' : world) (df : table) :
  build_combined_dataframe d w = (Returned df, w') →
  df_empty df = false →
  Forall (λ c, c ∈ columns df) base_columns.
Proof.
  intros Hb Hne. apply build_returns in Hb as (Hdf & Hrows & _).
  unfold df_empty in Hne. apply orb_false_iff in Hne as [Hne _].
  apply bool_decide_eq_false in Hne.
  destruct (rows df) as [|r rs] eqn:Hrs; [done|].
  apply Forall_forall. intros k Hk. rewrite Hdf.
  apply (pd_DataFrame_columns _ r); [left|].
  apply Forall_inv in Hrows. by apply Hrows.
Qed.

Lemma sort_key_base_columns (cols : gset string) :
  Forall (λ c, c ∈ cols) base_columns → Forall (λ c, c ∈ cols) sort_key.
Proof.
  rewrite !Forall_forall. intros Hb c Hc. apply Hb.
  unfold sort_key, base_columns in *. set_solver.
Qed.

(** [merge_existing], case by case. *)
Lemma merge_existing_run (a : args) (new_df : table) (w : world) :
  merge_existing a new_df w
  = match arg_append a, output_file w with
    | true, Some content =>
        let w1 := printed w ["Appending to existing file: " +:+ arg_output a] in
        match read_csv content with
        | Returned existing_df => (Returned (concat existing_df new_df), w1)
        | Raised e =>
            if decide (exn_cls e = EmptyDataError) then (Returned new_df, w1)
            else (Raised e, w1)
        end
    | _, _ => (Returned new_df, w)
    end.
Proof.
  unfold merge_existing, read_output, bind at 1.
  destruct (arg_append a), (output_file w) as [content|]; try done.
  unfold bind, try_except, print, lift, ret, printed, except_class. simpl.
  destruct (read_csv content) as [existing|e]; [done|].
  unfold bool_decide. by destruct (decide_rel _ _ _).
Qed.

Lemma merge_existing_output (a : args) (new_df final_df : table) (w w' : world) :
  merge_existing a new_df w = (Returned final_df, w') →
  output_file w' = output_file w ∧
  columns new_df ⊆ columns final_df.
Proof.
  rewrite merge_existing_run.
  destruct (arg_append a), (output_file w) as [content|] eqn:Hout;
    try (intros [= <- <-]; done).
  destruct (read_csv content) as [existing|e]; simpl.
  - intros [= <- <-]. simpl. split; [done|set_solver].
  - destruct (decide _); [|done]. by intros [= <- <-].
Qed.

(** [main], step by step. *)
Lemma main_run (a : args) (w : world) :
  main a w
  = match build_combined_dataframe (arg_dir a) (started a w) with
    | (Raised e, w1) => (Raised e, w1)
    | (Returned new_df, w1) =>
        if df_empty new_df then
          (Returned tt, printed w1 ["No valid file pairs found."])
        else
          match merge_existing a new_df w1 with
          | (Raised e, w2) => (Raised e, w2)
          | (Returned final_in, w2) =>
              match sort_values sort_key final_in with
              | Raised e => (Raised e, w2)
              | Returned final_df =>
                  (Returned tt,
                   World (stdout w2 ++
                          ["Success! Exported " +:+
                           pretty (length (rows new_df)) +:+
                           " new rows. Total rows in file: " +:+
                           pretty (length (rows final_df))])
                         (Some (to_csv final_df)))
              end
          end
    end.
Proof.
  unfold main, bind at 1. unfold print at 1. fold (printed w
    ["Parsing data for machine: " +:+ dir_name (arg_dir a)]).
  fold (started a w). unfold bind at 1.
  destruct (build_combined_dataframe (arg_dir a) (started a w))
    as [[new_df|e] w1]; [|done].
  destruct (df_empty new_df); simpl; [done|].
  unfold bind at 1.
  destruct (merge_existing a new_df w1) as [[final_in|e] w2]; [|done].
  unfold bind, lift.
  by destruct (sort_values sort_key final_in).
Qed.

End MainFacts.

(** * Properties of the script *)

(** C3, as amended.  Cleaning a field removes the whitespace around it and
    then every single quote, wherever the quote stands: the field is
    [lead], [core], [trail] with [lead] and [trail] whitespace, [core]
    neither starting nor ending with whitespace, and the cleaned field is
    [core] without its quotes, all other characters kept in order. *)
Theorem clean_strips_then_drops_every_quote (p : string) :
  ∃ lead core trail,
    p = lead +:+ core +:+ trail ∧
    PyStr.all PyStr.isspace lead = true ∧
    PyStr.all PyStr.isspace trail = true ∧
    (∀ c, head (PyStr.chars core) = Some c → PyStr.isspace c = false) ∧
    (∀ c, last (PyStr.chars core) = Some c → PyStr.isspace c = false) ∧
    PyStr.chars (clean p) = filter (λ c, c ≠ "'"%char) (PyStr.chars core).
Proof.
  destruct (strip_chars_spec PyStr.isspace p)
    as (lead & trail & Hp & Hlead & Htrail & Hhd & Hlast).
  exists lead, (PyStr.strip p), trail. repeat split; try done.
  unfold clean. apply replace_by_nothing.
Qed.

Section Claims.
Context `{Pandas}.

(** C2.  A line with at least three [;]-separated fields records, under
    the cleaned field 2, [None] when the cleaned field 0 is
    [<not supported>] or empty, and otherwise what [float] makes of it:
    [None] when the parse fails, the float when it succeeds.  No line
    aborts the reading: the lines before and after it are processed as
    well and the parser returns. *)
Theorem parse_line_records_value
    (metrics : gmap string (option pyfloat)) (line : string) :
  (3 ≤ length (PyStr.split ";" line))%nat →
  ∃ val_str metric_name,
    (clean <$> PyStr.split ";" line) !! 0%nat = Some val_str ∧
    (clean <$> PyStr.split ";" line) !! 2%nat = Some metric_name ∧
    parse_line metrics line
    = <[metric_name :=
          if decide (val_str = "<not supported>" ∨ val_str = "") then None
          else py_float val_str]> metrics ∧
    ∀ file_path before after w,
      parse_perf_semicolon_format file_path
        (Lines (before ++ line :: after) None) w
      = (Returned (foldl parse_line
                     (parse_line (foldl parse_line ∅ before) line) after),
         w).
Proof.
  intros Hlen.
  destruct (PyStr.split ";" line) as [|p0 [|p1 [|p2 ps]]] eqn:Hsplit;
    simpl in Hlen; try lia.
  exists (clean p0), (clean p2). split; [done|]. split; [done|]. split.
  - unfold parse_line. rewrite Hsplit.
    rewrite decide_True by (rewrite length_fmap; simpl; lia). simpl.
    destruct (String.eqb_spec (clean p0) "<not supported>") as [Hns|Hns];
      simpl; [by rewrite decide_True by by left|].
    destruct (String.eqb_spec (clean p0) "") as [Hne|Hne];
      simpl; [by rewrite decide_True by by right|].
    rewrite decide_False by naive_solver.
    destruct (py_float (clean p0)); reflexivity.
  - intros file_path before after w. rewrite parse_perf_run. simpl.
    rewrite printed_nil, foldl_app. reflexivity.
Qed.

(** C4.  Of the frame read from a CSV file only the first row is used:
    its cell 1 through [float] is the time and its cell 0 through [str]
    and [strip] is the label.  Without a first row, without one of the two
    cells, when [read_csv] raises or when [float] raises, both are [None];
    the block returns in every case, printing and writing nothing.  For a
    file whose stem is matched the turn of the loop returns too once the
    existence test of the companion has given its answer, and the row it
    adds is built from the row literal with the two values under [time]
    and [query_label]. *)
Theorem main_csv_first_row_or_absent (f : file) (w : world) :
  ∃ execution_time query_label,
    parse_main_csv f w = (Returned (execution_time, query_label), w) ∧
    match as_frame f with
    | Returned (r :: _) =>
        match r !! 0%nat, r !! 1%nat ≫= scalar_float with
        | Some y, Some t =>
            execution_time = Some t ∧
            query_label = Some (PyStr.strip (scalar_str y))
        | _, _ => execution_time = None ∧ query_label = None
        end
    | Returned [] | Raised _ => execution_time = None ∧ query_label = None
    end ∧
    (∀ d machine_name compiler name rs found,
       is_Some (filename_re_match (PyPath.stem name)) →
       path_exists d (PyPath.stem name +:+ ".data") = Returned found →
       ∃ repetition query eng threads perf_data w',
         scan_file d machine_name compiler (name, f) rs w
         = (Returned
              (rs ++ [update (row_literal machine_name compiler repetition
                                query eng threads query_label execution_time)
                        perf_data]),
            w')) ∧
    ∀ machine_name compiler repetition query eng threads,
      let r := row_literal machine_name compiler repetition query eng threads
                 query_label execution_time in
      r !! "time" = Some (opt_float execution_time) ∧
      r !! "query_label" = Some (opt_str query_label).
Proof.
  exists (csv_fields f).1, (csv_fields f).2.
  rewrite parse_main_csv_run, <-surjective_pairing. split; [done|].
  split; [|split].
  - unfold csv_fields. destruct (as_frame f) as [[|r rest]|e]; try done.
    destruct (r !! 0%nat) as [y|] eqn:Hy, (r !! 1%nat ≫= scalar_float) as [t|];
      done.
  - intros d m c name rs found [g Hm] [Hstat _]%path_exists_Returned.
    rewrite scan_file_run. unfold stat_error_of, row_of.
    simpl. rewrite Hm, Hstat. destruct g as [[[rep q] eng] thr].
    by eexists _, _, _, _, _, _.
  - intros. split; reflexivity.
Qed.

(** C7, as amended.  The parser returns for every file and never raises.
    When the file cannot be opened it prints the error and returns the
    empty mapping; when reading fails after some lines it prints the error
    and returns what those lines recorded; nothing else is printed and
    the output file is not touched. *)
Theorem parse_perf_returns_what_was_read
    (file_path : string) (f : text_file) (w : world) :
  parse_perf_semicolon_format file_path f w
  = (Returned match f with
              | OpenFails _ => ∅
              | Lines ls _ => foldl parse_line ∅ ls
              end,
     World (stdout w ++
            match f with
            | OpenFails e | Lines _ (Some e) =>
                ["Error reading " +:+ file_path +:+ ": " +:+ exn_str e]
            | Lines _ None => []
            end)
           (output_file w)).
Proof. by rewrite parse_perf_run. Qed.

(** C10, as amended.  On a directory whose name has at least two
    [_]-separated pieces the scan returns a table, whatever the files
    hold, exactly when the existence test raises for no companion of a
    matched file.  When it raises for one, the scan ends with that
    exception, after the turns of the files listed before. *)
Theorem build_returns_on_named_directory (d : directory) (w : world) :
  (2 ≤ length (PyStr.split "_" (dir_name d)))%nat →
  (companions_reachable d ↔
   ∃ df w', build_combined_dataframe d w = (Returned df, w')) ∧
  (¬ companions_reachable d →
   ∃ e w' csv_file,
     build_combined_dataframe d w = (Raised e, w') ∧
     csv_file ∈ glob_csv d ∧
     is_Some (filename_re_match (PyPath.stem csv_file.1)) ∧
     path_exists d (PyPath.stem csv_file.1 +:+ ".data") = Raised e).
Proof.
  intros Hlen.
  destruct (PyStr.split "_" (dir_name d)) as [|m [|c pieces]] eqn:Hpieces;
    simpl in Hlen; try lia.
  split; [split|].
  - intros Hok. eexists _, _. by eapply build_reachable.
  - by intros (df & w' & (_ & _ & _ & _ & Hok & _)%build_Returned).
  - intros Hnot. rewrite build_run, Hpieces. cbn zeta.
    destruct (scan_files d m c (glob_csv d) []).1 as [rs|e] eqn:Hscan.
    + destruct Hnot. by eapply scan_files_Returned.
    + apply scan_files_Raised in Hscan as (cf & Hcf & He).
      eexists e, _, cf. split; [done|]. split; [done|].
      unfold stat_error_of in He.
      destruct (filename_re_match (PyPath.stem cf.1)); [|done].
      split; [done|]. by apply path_exists_Raised.
Qed.

(** C1, as amended.  One turn of the loop over the [.csv] files adds a
    row exactly when the stem of the file starts with a string of the
    pattern and the existence test of its companion gives an answer; what
    follows the thread count in the stem is not looked at.  The groups are
    the digits after [r], the digits after the underscore, the engine
    letter and all the digits after [_t]; unless the companion metrics
    give a value under the same name, the row holds the three numbers as
    ints and [vectorwise] for [v], [hyper] for [h].  When the existence
    test raises, the turn ends with that exception and adds no row.  On
    any other stem the turn returns the rows as they were and prints
    nothing. *)
Theorem csv_file_adds_row_iff_stem_starts_with_pattern
    (d : directory) (machine_name compiler : string)
    (csv_file : string * file) (rs : list row) (w : world) :
  (stem_starts_with_pattern (PyPath.stem csv_file.1) →
   ∀ found,
   path_exists d (PyPath.stem csv_file.1 +:+ ".data") = Returned found →
   ∃ rep q_num eng threads rest r w',
     PyPath.stem csv_file.1 = pattern_string rep q_num eng threads +:+ rest ∧
     is_number rep ∧ is_number q_num ∧ is_number threads ∧
     no_digit_ahead rest ∧
     scan_file d machine_name compiler csv_file rs w
     = (Returned (rs ++ [r]), w') ∧
     let perf_data := companion_metrics d (PyPath.stem csv_file.1) in
     (perf_data !! "repetition" = None →
      r !! "repetition" = Some (VInt (PyStr.digits_value 0 rep))) ∧
     (perf_data !! "query" = None →
      r !! "query" = Some (VInt (PyStr.digits_value 0 q_num))) ∧
     (perf_data !! "threads" = None →
      r !! "threads" = Some (VInt (PyStr.digits_value 0 threads))) ∧
     (perf_data !! "engine" = None →
      (eng = "v"%char ∧ r !! "engine" = Some (VStr "vectorwise")) ∨
      (eng = "h"%char ∧ r !! "engine" = Some (VStr "hyper")))) ∧
  (stem_starts_with_pattern (PyPath.stem csv_file.1) →
   ∀ e,
   path_exists d (PyPath.stem csv_file.1 +:+ ".data") = Raised e →
   scan_file d machine_name compiler csv_file rs w = (Raised e, w)) ∧
  (¬ stem_starts_with_pattern (PyPath.stem csv_file.1) →
   scan_file d machine_name compiler csv_file rs w = (Returned rs, w)).
Proof.
  rewrite scan_file_run. unfold stat_error_of, row_of, log_of.
  split; [|split].
  - intros Hstart found [Hstat _]%path_exists_Returned.
    apply filename_re_match_is_Some in Hstart as [g Hm].
    destruct g as [[[rep q] eng] thr]. rewrite Hm, Hstat.
    apply filename_re_match_spec in Hm
      as (rest & Hstem & Hrep & Hq & Heng & Hthr & Hrest).
    eexists rep, q, eng, thr, rest, _, _.
    repeat (split; [done|]). simpl.
    repeat split; intros Hnone; rewrite update_lookup_None by done.
    + done.
    + done.
    + done.
    + by destruct Heng as [-> | ->]; [right|left].
  - intros Hstart e Hstat%path_exists_Raised.
    apply filename_re_match_is_Some in Hstart as [g Hm].
    by rewrite Hm, Hstat.
  - intros Hnot. apply filename_re_match_None in Hnot. rewrite Hnot. simpl.
    by rewrite app_nil_r, printed_nil.
Qed.

(** C8.  When the scan returns an empty table, [main] prints that no
    valid file pairs were found and returns; the output file is what it
    was before the run, missing or not. *)
Theorem empty_scan_leaves_output_file (a : args) (w w1 : world)
    (new_df : table) :
  build_combined_dataframe (arg_dir a) (started a w) = (Returned new_df, w1) →
  df_empty new_df = true →
  ∃ w', main a w = (Returned tt, w') ∧
        output_file w' = output_file w ∧
        stdout w' = stdout w1 ++ ["No valid file pairs found."].
Proof.
  intros Hbuild Hempty. rewrite main_run, Hbuild, Hempty.
  eexists. split; [done|]. split; [|done]. simpl.
  by apply build_returns in Hbuild as (_ & _ & ->).
Qed.

(** C6.  When the scan returns rows and the merge with the output file
    returns, [main] writes a table whose rows are those of the merged
    table in ascending order of (machine, query, threads, repetition),
    each column compared in the column order and the first column that
    tells two rows apart deciding.  The merged table is the new table when
    the run does not append, when there is no output file and when the
    file has no text, and the rows read from the file followed by the new
    rows otherwise. *)
Theorem final_table_sorted_before_written (a : args) (w w1 w2 : world)
    (new_df final_in : table) :
  build_combined_dataframe (arg_dir a) (started a w) = (Returned new_df, w1) →
  df_empty new_df = false →
  merge_existing a new_df w1 = (Returned final_in, w2) →
  ∃ final_df w',
    main a w = (Returned tt, w') ∧
    output_file w' = Some (to_csv final_df) ∧
    StronglySorted (row_le sort_key) (rows final_df) ∧
    Permutation (rows final_in) (rows final_df) ∧
    match arg_append a, output_file w with
    | true, Some content =>
        match read_csv content with
        | Returned existing_df => final_in = concat existing_df new_df
        | Raised _ => final_in = new_df
        end
    | _, _ => final_in = new_df
    end.
Proof.
  intros Hbuild Hne Hmerge.
  pose proof (build_sort_key _ _ _ _ Hbuild Hne) as Hcols.
  pose proof (merge_existing_output _ _ _ _ _ Hmerge) as [_ Hsub].
  destruct (sort_values_returns sort_key final_in) as [final_df Hsort].
  { apply sort_key_base_columns. eapply Forall_impl; [exact Hcols|].
    intros c Hc. by apply Hsub. }
  pose proof (sort_values_rows _ _ _ Hsort) as (_ & Hperm & Hsorted).
  rewrite main_run, Hbuild, Hne. simpl. rewrite Hmerge, Hsort.
  eexists final_df, _. repeat (split; [done|]).
  rewrite merge_existing_run in Hmerge.
  apply build_returns in Hbuild as (_ & _ & Hout). simpl in Hout.
  rewrite Hout in Hmerge.
  destruct (arg_append a), (output_file w) as [content|];
    try by injection Hmerge.
  destruct (read_csv content) as [existing|e]; simpl in Hmerge.
  - by injection Hmerge.
  - destruct (decide _); [by injection Hmerge|done].
Qed.


End Claims.

(** C9.  Whatever the metrics read from an existing companion hold under
    the name of a base column replaces the value of the row literal under
    that name.  In the
    sample directory the first run's [time] is the metric 99.0 and not the
    123.4 of its CSV file, and its [machine] is missing while the second
    run's is [m1]. *)
Theorem metric_named_like_base_column_overwrites :
  (∀ `{Pandas} (d : directory) (machine_name compiler : string)
     (csv_file : string * file)
     (perf_data : gmap string (option pyfloat)) (rs : list row)
     (w w0 w0' : world) (name : string) (v : option pyfloat),
     name ∈ base_columns →
     is_Some (filename_re_match (PyPath.stem csv_file.1)) →
     path_exists d (PyPath.stem csv_file.1 +:+ ".data") = Returned true →
     parse_perf_semicolon_format
       (dir_path d +:+ "/" +:+ PyPath.stem csv_file.1 +:+ ".data")
       (open_text d (PyPath.stem csv_file.1 +:+ ".data")) w0
     = (Returned perf_data, w0') →
     perf_data !! name = Some v →
     ∃ rep q eng threads label time r w',
       scan_file d machine_name compiler csv_file rs w
       = (Returned (rs ++ [r]), w') ∧
       r = update (row_literal machine_name compiler rep q eng threads
                     label time) perf_data ∧
       is_Some (row_literal machine_name compiler rep q eng threads
                  label time !! name) ∧
       r !! name = Some (opt_float v)) ∧
  (build_combined_dataframe Sample.with_named_metrics Sample.fresh
   = (Returned (pd_DataFrame [Sample.named_metrics_row;
                              Sample.run_row 2 5 "h" 4 "Q5" (1200, 1%nat)]),
      Sample.fresh) ∧
   parse_main_csv (Sample.timing "Q5" "123.4") Sample.fresh
   = (Returned (Some (1234, 1%nat), Some "Q5"), Sample.fresh) ∧
   Sample.named_metrics_row !! "time" = Some (VFloat (990, 1%nat)) ∧
   Sample.named_metrics_row !! "machine" = Some VNone ∧
   Sample.run_row 2 5 "h" 4 "Q5" (1200, 1%nat) !! "machine"
   = Some (VStr "m1")).
Proof.
  split.
  - intros R P d m c csv_file perf_data rs w w0 w0' name v
      Hbase [g Hm] [Hstat Hfound]%path_exists_Returned Hperf Hname.
    rewrite parse_perf_run in Hperf. injection Hperf as <- _.
    rewrite scan_file_run. unfold stat_error_of, row_of. rewrite Hm, Hstat.
    destruct g as [[[rep q] eng] thr]. unfold companion_metrics, open_text.
    symmetry in Hfound. apply bool_decide_eq_true in Hfound as [pf Hfile].
    unfold open_text in Hname. rewrite Hfile in Hname |- *. simpl. eexists _, _, _, _, _, _, _, _.
    split; [done|]. split; [done|]. split.
    + apply elem_of_dom. rewrite row_literal_dom.
      by apply elem_of_list_to_set.
    + by apply update_lookup_Some.
  - repeat split; reflexivity.
Qed.

(** ** The properties on the sample directories *)

(** C1 as stated fails: the stem [r1_5h_t4x] is not a string of the
    pattern, and its file adds a row all the same; and the row of
    [r1_5h_t4.csv], whose companion has a metric named [repetition], holds
    that metric and not the 1 of the file name. *)
Lemma stem_with_suffix_still_adds_row :
  build_combined_dataframe Sample.with_suffix Sample.fresh
  = (Returned (pd_DataFrame [Sample.run_row 1 5 "h" 4 "Q5" (1234, 1%nat)]),
     Sample.fresh) ∧
  PyPath.stem "r1_5h_t4x.csv" = "r1_5h_t4x" ∧
  ¬ stem_has_pattern "r1_5h_t4x" ∧
  build_combined_dataframe Sample.with_named_metrics Sample.fresh
  = (Returned (pd_DataFrame [Sample.named_metrics_row;
                             Sample.run_row 2 5 "h" 4 "Q5" (1200, 1%nat)]),
     Sample.fresh) ∧
  Sample.named_metrics_row !! "repetition" = Some (VFloat (7, 0%nat)).
Proof.
  split; [reflexivity|]. split; [reflexivity|].
  split; [|split; reflexivity].
  intros Hp. apply stem_has_pattern_match in Hp
    as (rep & q & eng & thr & Hm & Hstem).
  vm_compute in Hm. injection Hm as <- <- <- <-. discriminate Hstem.
Qed.

(** C3 as stated fails: the quote inside [it's] is removed, where
    stripping whitespace and quotes from both ends would keep it; and the
    blanks inside the quotes of [' x '] stay, where such stripping would
    remove them. *)
Lemma interior_quote_is_removed :
  clean "it's" = "its" ∧
  PyStr.strip_chars (λ c, PyStr.isspace c || Ascii.eqb c "'") "it's" = "it's" ∧
  clean "' x '" = " x " ∧
  PyStr.strip_chars (λ c, PyStr.isspace c || Ascii.eqb c "'") "' x '" = "x".
Proof. repeat split; reflexivity. Qed.

(** C7 as stated fails: a file whose reading raises after one line gives
    the mapping with that line's metric, not the empty one. *)
Lemma half_read_file_keeps_its_metrics :
  parse_perf_semicolon_format "/bench/m1_gcc9/r1_5h_t4.data" Sample.half_read
    Sample.fresh
  = (Returned {[ "cycles" := Some (15, 1%nat) ]},
     World ["Error reading /bench/m1_gcc9/r1_5h_t4.data: " +:+
            "'utf-8' codec can't decode byte 0xff"] None) ∧
  ({[ "cycles" := Some (15, 1%nat) ]} : gmap string (option Sample.decimal))
    !! "cycles" = Some (Some (15, 1%nat)).
Proof. split; reflexivity. Qed.


(** C2 on the line of the spec. *)
Lemma parse_line_records_value_witness :
  (3 ≤ length (PyStr.split ";" "12.5;unit;metric_x"))%nat ∧
  parse_line (H := Sample.runtime) ∅ "12.5;unit;metric_x"
  = {[ "metric_x" := Some (125, 1%nat) ]}.
Proof.
  assert (Hlen : (3 ≤ length (PyStr.split ";" "12.5;unit;metric_x"))%nat)
    by (vm_compute; lia).
  split; [exact Hlen|].
  destruct (parse_line_records_value (H := Sample.runtime)
              (H0 := Sample.pandas) ∅ "12.5;unit;metric_x" Hlen)
    as (val_str & metric_name & Hval & Hname & Hline & _).
  vm_compute in Hval, Hname. injection Hval as <-. injection Hname as <-.
  rewrite Hline. reflexivity.
Defined.

(** C10 as stated fails: in a directory named [m1_gcc9] the timing file
    of a run has a name of 255 bytes that the pattern matches; the name
    of its companion is too long for [stat], the existence test raises
    [OSError] outside every [try], and the scan raises it. *)
Lemma long_file_name_ends_the_scan :
  (2 ≤ length (PyStr.split "_" (dir_name Cases.long_name)))%nat ∧
  String.length Cases.long_csv = 255%nat ∧
  dir_files Cases.long_name !! Cases.long_csv
  = Some (Sample.timing "Q5" "123.4") ∧
  stem_has_pattern (PyPath.stem Cases.long_csv) ∧
  path_exists Cases.long_name (PyPath.stem Cases.long_csv +:+ ".data")
  = Raised (Exn OSError "[Errno 36] File name too long") ∧
  build_combined_dataframe Cases.long_name Sample.fresh
  = (Raised (Exn OSError "[Errno 36] File name too long"), Sample.fresh).
Proof.
  split; [vm_compute; lia|]. split; [reflexivity|]. split; [reflexivity|].
  split; [|split; reflexivity].
  exists "1", "5", "h"%char, (repeat_char "4" 244).
  repeat split; try done. by left.
Qed.

(** C10 on the directory of the end-to-end scenario. *)
Lemma build_returns_on_named_directory_witness :
  (2 ≤ length (PyStr.split "_" (dir_name Sample.m1_gcc9)))%nat ∧
  companions_reachable Sample.m1_gcc9 ∧
  ∃ df w', build_combined_dataframe Sample.m1_gcc9 Sample.fresh
           = (Returned df, w').
Proof.
  assert (Hlen : (2 ≤ length (PyStr.split "_" (dir_name Sample.m1_gcc9)))%nat)
    by (vm_compute; lia).
  assert (Hglob : glob_csv Sample.m1_gcc9
                  = [("run_14_t8.csv", Sample.timing "Q14" "7.5");
                     ("r1_5h_t4.csv", Sample.timing "Q5" "123.4")])
    by reflexivity.
  assert (Hok : companions_reachable Sample.m1_gcc9)
    by (unfold companions_reachable; rewrite Hglob; repeat constructor).
  split; [exact Hlen|]. split; [exact Hok|].
  destruct (build_returns_on_named_directory Sample.m1_gcc9 Sample.fresh Hlen)
    as [[Hreturns _] _].
  exact (Hreturns Hok).
Defined.

(** C8 on a directory without a run, next to an output file of an earlier
    run. *)
Lemma empty_scan_leaves_output_file_witness :
  build_combined_dataframe Sample.no_runs
    (started (Sample.append_to Sample.no_runs)
       (Sample.with_output Sample.earlier_table))
  = (Returned (pd_DataFrame []),
     started (Sample.append_to Sample.no_runs)
       (Sample.with_output Sample.earlier_table)) ∧
  df_empty (pd_DataFrame (H := Sample.runtime) []) = true ∧
  ∃ w', main (Sample.append_to Sample.no_runs)
          (Sample.with_output Sample.earlier_table) = (Returned tt, w') ∧
        output_file w' = Some (Some Sample.earlier_table).
Proof.
  assert (Hbuild :
    build_combined_dataframe Sample.no_runs
      (started (Sample.append_to Sample.no_runs)
         (Sample.with_output Sample.earlier_table))
    = (Returned (pd_DataFrame []),
       started (Sample.append_to Sample.no_runs)
         (Sample.with_output Sample.earlier_table)))
    by reflexivity.
  assert (Hempty : df_empty (pd_DataFrame (H := Sample.runtime) []) = true)
    by reflexivity.
  split; [exact Hbuild|]. split; [exact Hempty|].
  destruct (empty_scan_leaves_output_file
              (Sample.append_to Sample.no_runs)
              (Sample.with_output Sample.earlier_table) _ _ Hbuild Hempty)
    as (w' & Hmain & Hout & _).
  exists w'. split; [exact Hmain|]. exact Hout.
Defined.

(** C6 on three runs appended to the output file of an earlier run. *)
Lemma final_table_sorted_before_written_witness :
  let a := Sample.append_to Sample.three_runs in
  let w := Sample.with_output Sample.earlier_table in
  let w2 := printed (started a w)
              ["Appending to existing file: combined_results.csv"] in
  let final_in := concat Sample.earlier_table Sample.three_runs_table in
  build_combined_dataframe Sample.three_runs (started a w)
  = (Returned Sample.three_runs_table, started a w) ∧
  df_empty Sample.three_runs_table = false ∧
  merge_existing a Sample.three_runs_table (started a w)
  = (Returned final_in, w2) ∧
  ∃ final_df w',
    main a w = (Returned tt, w') ∧
    output_file w' = Some (Some final_df) ∧
    StronglySorted (row_le (H0 := Sample.pandas) sort_key) (rows final_df) ∧
    Permutation (rows final_in) (rows final_df).
Proof.
  intros a w w2 final_in.
  assert (Hbuild :
    build_combined_dataframe (arg_dir a) (started a w)
    = (Returned Sample.three_runs_table, started a w))
    by reflexivity.
  assert (Hne : df_empty Sample.three_runs_table = false)
    by reflexivity.
  assert (Hmerge :
    merge_existing a Sample.three_runs_table (started a w)
    = (Returned final_in, w2)) by (reflexivity).
  split; [exact Hbuild|]. split; [exact Hne|]. split; [exact Hmerge|].
  destruct (final_table_sorted_before_written a w _ _ _ _ Hbuild Hne Hmerge)
    as (final_df & w' & Hmain & Hout & Hsorted & Hperm & _).
  exists final_df, w'. repeat split; assumption.
Defined.


(** ** The examples of the spec *)

Example semicolon_line_ex :
  parse_line (H := Sample.runtime) ∅ "12.5;unit;metric_x"
  = {[ "metric_x" := Some (125, 1%nat) ]}.
Proof. reflexivity. Qed.

Example not_supported_line_ex :
  parse_line (H := Sample.runtime) ∅ "<not supported>;unit;metric_y"
  = {[ "metric_y" := None ]}.
Proof. reflexivity. Qed.

Example short_line_ex :
  parse_line (H := Sample.runtime) {[ "cycles" := Some (420, 1%nat) ]} "1.5;ns"
  = {[ "cycles" := Some (420, 1%nat) ]}.
Proof. reflexivity. Qed.

Example filename_ex :
  filename_re_match "r2_14h_t8" = Some ("2", "14", "h"%char, "8") ∧
  PyStr.int "2" = Some 2 ∧ PyStr.int "14" = Some 14 ∧ PyStr.int "8" = Some 8 ∧
  filename_re_match "run_14_t8" = None.
Proof. repeat split; reflexivity. Qed.

Example directory_name_ex :
  build_combined_dataframe Sample.nodeA Sample.fresh
  = (Returned (pd_DataFrame
                 [row_literal (H := Sample.runtime) "nodeA" "clangO3" 2 14 "h"
                    8 (Some "Q14") (Some (75, 1%nat))]),
     Sample.fresh).
Proof. reflexivity. Qed.

Example end_to_end_ex :
  build_combined_dataframe Sample.m1_gcc9 Sample.fresh
  = (Returned (pd_DataFrame
                 [<["cycles" := VFloat (420, 1%nat)]>
                    (Sample.run_row 1 5 "h" 4 "Q5" (1234, 1%nat))]),
     Sample.fresh).
Proof. reflexivity. Qed.

(** * Further properties of the script *)

(** ** Fields, names and stems *)

Lemma split_length (sep : ascii) (s : string) :
  length (PyStr.split sep s) = S (count_char sep s).
Proof.
  induction s as [|c s IH]; [done|]. simpl.
  destruct (Ascii.eqb c sep); simpl; [by rewrite IH|].
  destruct (PyStr.split sep s); simpl in *; lia.
Qed.

Lemma split_no_sep (sep : ascii) (s p : string) :
  p ∈ PyStr.split sep s → sep ∉ PyStr.chars p.
Proof.
  revert p. induction s as [|c s IH]; intros p; simpl.
  - intros ->%list_elem_of_singleton. simpl. by intros ?%elem_of_nil.
  - destruct (Ascii.eqb_spec c sep) as [->|Hne].
    + intros [->|Hp]%elem_of_cons; [simpl; by intros ?%elem_of_nil|by apply IH].
    + destruct (PyStr.split sep s) as [|h t].
      * intros ->%list_elem_of_singleton. simpl.
        intros [?|?%elem_of_nil]%elem_of_cons; congruence.
      * intros [->|Hp]%elem_of_cons; [|apply IH; by right].
        simpl. intros [?|Hin]%elem_of_cons; [congruence|].
        by apply (IH h); [left|].
Qed.

Lemma endswith_spec (suffix s : string) :
  PyStr.endswith suffix s = true ↔ ∃ base, s = base +:+ suffix.
Proof.
  split.
  - induction s as [|c s IH]; simpl.
    + rewrite orb_false_r. intros ->%String.eqb_eq. by exists EmptyString.
    + intros [->%String.eqb_eq|Hs]%orb_true_iff; [by exists EmptyString|].
      destruct (IH Hs) as [base ->]. by exists (String c base).
  - intros [base ->]. induction base as [|c base IH].
    + rewrite app_empty_l. destruct suffix; simpl; [done|].
      by rewrite Ascii.eqb_refl, String.eqb_refl.
    + rewrite app_cons. simpl. by rewrite IH, orb_true_r.
Qed.

Lemma rsplit_dot_csv (base : string) :
  PyPath.rsplit_dot (base +:+ ".csv") = Some (base, "csv").
Proof.
  induction base as [|c base IH]; [done|].
  rewrite app_cons. simpl. by rewrite IH.
Qed.

(** ** The metrics parser *)

Section ParserFacts.
Context `{Pandas}.

(** A line either inserts what it records under its third field or leaves
    the dict alone. *)
Lemma parse_line_eq (metrics : gmap string (option pyfloat)) (line : string) :
  parse_line metrics line
  = match clean <$> PyStr.split ";" line with
    | val_str :: _ :: metric_name :: _ =>
        <[metric_name := recorded val_str]> metrics
    | _ => metrics
    end.
Proof.
  unfold parse_line, recorded.
  destruct (clean <$> PyStr.split ";" line) as [|v [|u [|k ps]]] eqn:Hparts;
    (destruct (decide _) as [Hlen|Hlen]; simpl in Hlen; [|try done; lia]);
    try lia.
  simpl.
  destruct (String.eqb_spec v "<not supported>") as [Hns|Hns];
    simpl; [by rewrite decide_True by by left|].
  destruct (String.eqb_spec v "") as [Hne|Hne];
    simpl; [by rewrite decide_True by by right|].
  rewrite decide_False by naive_solver.
  destruct (py_float v); reflexivity.
Qed.

Lemma parse_line_other (metrics : gmap string (option pyfloat))
    (line name : string) :
  (clean <$> PyStr.split ";" line) !! 2%nat ≠ Some name →
  parse_line metrics line !! name = metrics !! name.
Proof.
  rewrite parse_line_eq.
  destruct (clean <$> PyStr.split ";" line) as [|v [|u [|k ps]]]; try done.
  simpl. intros Hk. apply lookup_insert_ne. congruence.
Qed.

Lemma parse_lines_other (metrics : gmap string (option pyfloat))
    (ls : list string) (name : string) :
  Forall (λ l, (clean <$> PyStr.split ";" l) !! 2%nat ≠ Some name) ls →
  foldl parse_line metrics ls !! name = metrics !! name.
Proof.
  revert metrics. induction ls as [|l ls IH]; intros metrics Hls; [done|].
  apply Forall_cons in Hls as [Hl Hls]. simpl.
  by rewrite IH, parse_line_other.
Qed.

(** Every name in the dict after some lines was there before or is the
    third cleaned field of one of the lines. *)
Lemma parse_lines_names (metrics : gmap string (option pyfloat))
    (ls : list string) (name : string) :
  is_Some (foldl parse_line metrics ls !! name) →
  is_Some (metrics !! name) ∨
  ∃ line, line ∈ ls ∧ (clean <$> PyStr.split ";" line) !! 2%nat = Some name.
Proof.
  revert metrics. induction ls as [|l ls IH]; intros metrics; simpl; [by left|].
  intros [Hm|(line & Hin & Hline)]%IH.
  - destruct (decide ((clean <$> PyStr.split ";" l) !! 2%nat = Some name))
      as [Hl|Hl].
    + right. exists l. split; [left|done].
    + left. by rewrite parse_line_other in Hm.
  - right. exists line. split; [by right|done].
Qed.

Lemma chars_strip_subseteq (p : string) :
  PyStr.chars (PyStr.strip p) ⊆ PyStr.chars p.
Proof.
  destruct (strip_chars_spec PyStr.isspace p) as (lead & trail & Hp & _).
  intros c Hc. rewrite Hp, !chars_app. fold (PyStr.strip p).
  apply elem_of_app. right. apply elem_of_app. by left.
Qed.

Lemma chars_clean (p : string) (c : ascii) :
  c ∈ PyStr.chars (clean p) → c ≠ "'"%char ∧ c ∈ PyStr.chars p.
Proof.
  unfold clean. rewrite replace_by_nothing.
  intros [Hne Hc]%list_elem_of_filter. split; [done|].
  by apply chars_strip_subseteq.
Qed.

(** X1.  Lines with fewer than two semicolons record nothing: a dump made
    of such lines gives the empty mapping and prints nothing. *)
Theorem lines_without_third_field_record_nothing
    (file_path : string) (ls : list string) (w : world) :
  Forall (λ line, (count_char ";" line < 2)%nat) ls →
  parse_perf_semicolon_format file_path (Lines ls None) w = (Returned ∅, w).
Proof.
  intros Hls. rewrite parse_perf_run. simpl. rewrite printed_nil.
  do 2 f_equal. generalize (∅ : gmap string (option pyfloat)).
  induction Hls as [|line ls Hline Hls IH]; intros metrics; [done|].
  simpl. rewrite <-IH. f_equal. rewrite parse_line_eq.
  pose proof (split_length ";" line) as Hlen.
  destruct (PyStr.split ";" line) as [|v [|u [|k ps]]]; simpl in *;
    try done; lia.
Qed.

(** X2.  When several lines name one metric, the last of them decides:
    the mapping holds under that name what this line records, whatever
    the lines before it recorded, also when the reading fails later. *)
Theorem last_line_of_a_name_decides
    (file_path : string) (before : list string) (line : string)
    (after : list string) (stop : option exn) (w : world)
    (val_str name : string) :
  (clean <$> PyStr.split ";" line) !! 0%nat = Some val_str →
  (clean <$> PyStr.split ";" line) !! 2%nat = Some name →
  Forall (λ l, (clean <$> PyStr.split ";" l) !! 2%nat ≠ Some name) after →
  ∃ metrics w',
    parse_perf_semicolon_format file_path
      (Lines (before ++ line :: after) stop) w = (Returned metrics, w') ∧
    metrics !! name = Some (recorded val_str).
Proof.
  intros Hval Hname Hafter. rewrite parse_perf_run. eexists _, _.
  split; [done|]. simpl. rewrite foldl_app. simpl.
  rewrite parse_lines_other by done. rewrite parse_line_eq.
  destruct (clean <$> PyStr.split ";" line) as [|v [|u [|k ps]]]; try done.
  simpl in *. simplify_eq. apply lookup_insert_eq.
Qed.

(** X3.  Every metric name of the mapping returned is the cleaned third
    field of a line read, and holds neither a semicolon nor a single
    quote. *)
Theorem metric_names_are_cleaned_fields
    (file_path : string) (ls : list string) (stop : option exn) (w : world) :
  ∃ metrics w',
    parse_perf_semicolon_format file_path (Lines ls stop) w
    = (Returned metrics, w') ∧
    ∀ name, is_Some (metrics !! name) →
      (∃ line, line ∈ ls ∧
               (clean <$> PyStr.split ";" line) !! 2%nat = Some name) ∧
      (";"%char ∉ PyStr.chars name) ∧ ("'"%char ∉ PyStr.chars name).
Proof.
  rewrite parse_perf_run. eexists _, _. split; [done|]. simpl.
  intros name [Hempty|(line & Hin & Hline)]%parse_lines_names.
  { rewrite lookup_empty in Hempty. by destruct Hempty. }
  split; [by exists line|].
  apply list_lookup_fmap_Some in Hline as (p & -> & Hp).
  apply list_elem_of_lookup_2 in Hp.
  split; intros [Hq Hc]%chars_clean; [|done].
  by apply (split_no_sep ";" line p).
Qed.

End ParserFacts.

(** ** The directory scan *)

Lemma digits_value_bounds (s : string) (acc : Z) :
  PyStr.all PyStr.isdigit s = true → 0 ≤ acc →
  0 ≤ PyStr.digits_value acc s.
Proof.
  revert acc. induction s as [|c s IH]; intros acc Hall Hacc; [done|].
  unfold PyStr.all in Hall. simpl in Hall.
  apply andb_true_iff in Hall as [Hc Hall]. simpl. apply IH; [done|].
  unfold PyStr.isdigit in Hc. apply andb_true_iff in Hc as [Hlo _].
  apply N.leb_le in Hlo. lia.
Qed.

(** X4.  The three numbers of a matched file name are read by [int]
    without an error and are not negative. *)
Theorem matched_groups_are_natural_numbers
    (stem rep q_num : string) (eng : ascii) (threads : string) :
  filename_re_match stem = Some (rep, q_num, eng, threads) →
  ∃ repetition query n_threads,
    py_int rep = Returned repetition ∧ py_int q_num = Returned query ∧
    py_int threads = Returned n_threads ∧
    0 ≤ repetition ∧ 0 ≤ query ∧ 0 ≤ n_threads.
Proof.
  intros (rest & _ & Hrep & Hq & _ & Hthr & _)%filename_re_match_spec.
  exists (PyStr.digits_value 0 rep), (PyStr.digits_value 0 q_num),
    (PyStr.digits_value 0 threads).
  unfold py_int. rewrite !int_of_number by done.
  repeat split; try done; apply digits_value_bounds; try lia;
    by (apply Hrep || apply Hq || apply Hthr).
Qed.

Section ScanFacts.
Context `{Pandas}.

Lemma row_of_is_Some (d : directory) (machine_name compiler : string)
    (csv_file : string * file) :
  is_Some (row_of d machine_name compiler csv_file) ↔
  is_Some (filename_re_match (PyPath.stem csv_file.1)).
Proof.
  unfold row_of.
  destruct (filename_re_match _) as [[[[rep q] eng] thr]|]; [|done].
  split; intros _; by eexists.
Qed.

Lemma omap_length_filter {A B} (f : A → option B) (l : list A) :
  length (omap f l) = length (filter (λ x, is_Some (f x)) l).
Proof.
  induction l as [|x l IH]; [done|]. simpl.
  destruct (f x) as [y|] eqn:Hx.
  - rewrite filter_cons_True by (by rewrite Hx). simpl. f_equal. apply IH.
  - rewrite filter_cons_False by (rewrite Hx; by intros [? ?]). apply IH.
Qed.

Lemma glob_csv_entry (d : directory) (cf : string * file) :
  cf ∈ glob_csv d ↔
  dir_files d !! cf.1 = Some cf.2 ∧ PyStr.endswith ".csv" cf.1 = true.
Proof.
  unfold glob_csv. rewrite list_elem_of_filter.
  destruct cf as [name f]. rewrite elem_of_map_to_list. simpl. tauto.
Qed.

Lemma matched_csv_entry (d : directory) (cf : string * file) :
  cf ∈ matched_csv d ↔
  cf ∈ glob_csv d ∧ is_Some (filename_re_match (PyPath.stem cf.1)).
Proof. unfold matched_csv. rewrite list_elem_of_filter. tauto. Qed.

Lemma Forall2_filter_omap {A B} (f : A → option B) (R : A → B → Prop)
    (l : list A) :
  (∀ x y, x ∈ l → f x = Some y → R x y) →
  Forall2 R (filter (λ x, is_Some (f x)) l) (omap f l).
Proof.
  induction l as [|x l IH]; intros HR; [constructor|]. simpl.
  destruct (f x) as [y|] eqn:Hx.
  - rewrite filter_cons_True by (by rewrite Hx). constructor.
    + apply HR; [left|done].
    + apply IH. intros x' y' Hx'. apply HR. by right.
  - rewrite filter_cons_False by (rewrite Hx; by intros [? ?]).
    apply IH. intros x' y' Hx'. apply HR. by right.
Qed.

Lemma matched_csv_row_of (d : directory) (machine_name compiler : string) :
  matched_csv d
  = filter (λ cf, is_Some (row_of d machine_name compiler cf)) (glob_csv d).
Proof.
  unfold matched_csv. apply list_filter_iff. intros cf.
  symmetry. apply row_of_is_Some.
Qed.

(** X5.  A matched file whose counter dump the existence test does not
    find, or finds but [open] cannot open, adds a row with exactly the
    eight base columns, the row literal itself; the output file is not
    touched. *)
Theorem run_without_readable_dump_has_base_columns
    (d : directory) (machine_name compiler name : string) (f : file)
    (rs : list row) (w : world) :
  is_Some (filename_re_match (PyPath.stem name)) →
  path_exists d (PyPath.stem name +:+ ".data") = Returned false ∨
  (path_exists d (PyPath.stem name +:+ ".data") = Returned true ∧
   ∃ e, open_text d (PyPath.stem name +:+ ".data") = OpenFails e) →
  ∃ repetition query eng threads label time w',
    scan_file d machine_name compiler (name, f) rs w
    = (Returned (rs ++ [row_literal machine_name compiler repetition query
                          eng threads label time]), w') ∧
    dom (row_literal machine_name compiler repetition query eng threads
           label time) = list_to_set base_columns ∧
    output_file w' = output_file w.
Proof.
  intros [g Hm] Hdump. rewrite scan_file_run.
  unfold stat_error_of, row_of. simpl.
  rewrite Hm. destruct g as [[[rep q] eng] thr].
  assert (dir_stat_error d (PyPath.stem name +:+ ".data") = None) as ->.
  { by destruct Hdump as [[? _]%path_exists_Returned
                         |[[? _]%path_exists_Returned _]]. }
  assert (companion_metrics d (PyPath.stem name) = ∅) as ->.
  { unfold companion_metrics.
    destruct Hdump as [[_ Hnone]%path_exists_Returned
                      |[_ [e Hopen]]].
    - symmetry in Hnone. apply bool_decide_eq_false in Hnone.
      destruct (dir_files d !! _) as [pf|]; [|done].
      destruct Hnone. by eexists.
    - unfold open_text in Hopen.
      destruct (dir_files d !! _) as [pf|]; [|done]. simpl.
      by rewrite Hopen. }
  assert (∀ r : row, update r ∅ = r) as ->.
  { intros r. unfold update. by rewrite fmap_empty, (left_id_L ∅ (∪)). }
  eexists _, _, _, _, _, _, _. split; [reflexivity|].
  split; [|done]. by rewrite row_literal_dom.
Qed.

(** X6.  The table a scan returns has one row for each [.csv] entry of
    the directory whose stem the pattern matches, and so at most as many
    rows as the directory has entries. *)
Theorem one_row_per_matched_csv (d : directory) (w w' : world) (df : table) :
  build_combined_dataframe d w = (Returned df, w') →
  length (rows df) = length (matched_csv d) ∧
  (length (matched_csv d) ≤ size (dir_files d))%nat.
Proof.
  intros (m & c & pieces & _ & _ & -> & _)%build_Returned. simpl. split.
  - by rewrite omap_length_filter, (matched_csv_row_of d m c).
  - unfold matched_csv, glob_csv.
    rewrite <-(length_map_to_list (dir_files d)).
    etrans; [apply length_filter|]. apply length_filter.
Qed.

(** X7.  The rows of the table a scan returns are, one by one and in the
    order of the listing, the rows of the matched files: the row of a file
    is the one its turn of the loop adds, and it holds the first piece of
    the directory name as machine and the second as compiler, further
    pieces being ignored, unless the counter dump of that file has a
    metric of that name. *)
Theorem rows_share_machine_and_compiler
    (d : directory) (w w' : world) (df : table)
    (machine_name compiler : string) (pieces : list string) :
  PyStr.split "_" (dir_name d) = machine_name :: compiler :: pieces →
  build_combined_dataframe d w = (Returned df, w') →
  Forall2
    (λ (cf : string * file) (r : row),
       (∀ rs v, ∃ v', scan_file d machine_name compiler cf rs v
                      = (Returned (rs ++ [r]), v')) ∧
       (companion_metrics d (PyPath.stem cf.1) !! "machine" = None →
        r !! "machine" = Some (VStr machine_name)) ∧
       (companion_metrics d (PyPath.stem cf.1) !! "compiler" = None →
        r !! "compiler" = Some (VStr compiler)))
    (matched_csv d) (rows df).
Proof.
  intros Hpieces (m & c & pieces' & Hpieces' & Hok & -> & _)%build_Returned.
  rewrite Hpieces in Hpieces'. injection Hpieces' as <- <- _. simpl.
  rewrite (matched_csv_row_of d machine_name compiler).
  apply Forall2_filter_omap. intros cf r Hcf Hrow. split.
  - intros rs v. rewrite scan_file_run.
    unfold companions_reachable in Hok. rewrite Forall_forall in Hok.
    rewrite (Hok cf Hcf), Hrow. by eexists.
  - unfold row_of in Hrow.
    destruct (filename_re_match _) as [[[[rep q] eng] thr]|]; [|done].
    injection Hrow as <-.
    split; intros Hnone; by rewrite update_lookup_None.
Qed.

(** X8.  Every file the scan visits is a directory entry named after its
    stem with [.csv] appended, the entry [.csv] apart: the counter dump
    looked up, the stem with [.data] appended, is the name with the
    extension replaced. *)
Theorem visited_file_is_stem_with_csv (d : directory) (cf : string * file) :
  cf ∈ glob_csv d → cf.1 ≠ ".csv" →
  dir_files d !! cf.1 = Some cf.2 ∧ cf.1 = PyPath.stem cf.1 +:+ ".csv".
Proof.
  intros [Hentry Hcsv]%glob_csv_entry Hname. split; [done|].
  apply endswith_spec in Hcsv as [base Hbase]. rewrite Hbase in *.
  unfold PyPath.stem. rewrite rsplit_dot_csv.
  destruct base; [done|]. done.
Qed.

(** X9.  The columns of the table are the eight base columns and the
    metric names of the counter dumps of the matched files, and nothing
    else; a scan without a matched file has no column. *)
Theorem table_columns_are_base_and_metric_names
    (d : directory) (w w' : world) (df : table) :
  build_combined_dataframe d w = (Returned df, w') →
  ∀ col, col ∈ columns df ↔
    ∃ cf, cf ∈ matched_csv d ∧
      (col ∈ base_columns ∨
       is_Some (companion_metrics d (PyPath.stem cf.1) !! col)).
Proof.
  intros (m & c & pieces & _ & _ & -> & _)%build_Returned col.
  simpl. rewrite elem_of_union_list. split.
  - intros (X & (r & -> & (cf & Hcf & Hrow)%list_elem_of_omap)%list_elem_of_fmap
            & Hcol).
    exists cf. split.
    { apply matched_csv_entry. split; [done|].
      apply (row_of_is_Some d m c). by eexists. }
    unfold row_of in Hrow.
    destruct (filename_re_match _) as [[[[rep q] eng] thr]|]; [|done].
    injection Hrow as <-. unfold update in Hcol.
    rewrite dom_union_L, dom_fmap_L, row_literal_dom in Hcol.
    apply elem_of_union in Hcol as [Hcol|Hcol].
    + right. by apply elem_of_dom.
    + left. by apply elem_of_list_to_set in Hcol.
  - intros (cf & [Hcf Hm]%matched_csv_entry & Hcol).
    apply (row_of_is_Some d m c) in Hm as [r Hrow].
    exists (dom r). split.
    { apply list_elem_of_fmap. exists r. split; [done|].
      apply list_elem_of_omap. by exists cf. }
    unfold row_of in Hrow.
    destruct (filename_re_match _) as [[[[rep q] eng] thr]|]; [|done].
    injection Hrow as <-. unfold update.
    rewrite dom_union_L, dom_fmap_L, row_literal_dom.
    destruct Hcol as [Hcol|Hcol].
    + apply elem_of_union_r. by apply elem_of_list_to_set.
    + apply elem_of_union_l. by apply elem_of_dom.
Qed.

End ScanFacts.

(** ** The entry point *)

Section EntryFacts.
Context `{Pandas}.

(** What [main] does once the scan has returned rows and the merge a
    table. *)
Lemma main_after_merge (a : args) (w w1 w2 : world) (new_df final_in : table) :
  build_combined_dataframe (arg_dir a) (started a w) = (Returned new_df, w1) →
  df_empty new_df = false →
  merge_existing a new_df w1 = (Returned final_in, w2) →
  ∃ final_df,
    sort_values sort_key final_in = Returned final_df ∧
    main a w
    = (Returned tt,
       World (stdout w2 ++
              ["Success! Exported " +:+ pretty (length (rows new_df)) +:+
               " new rows. Total rows in file: " +:+
               pretty (length (rows final_df))])
             (Some (to_csv final_df))).
Proof.
  intros Hbuild Hne Hmerge.
  pose proof (build_sort_key _ _ _ _ Hbuild Hne) as Hcols.
  pose proof (merge_existing_output _ _ _ _ _ Hmerge) as [_ Hsub].
  destruct (sort_values_returns sort_key final_in) as [final_df Hsort].
  { apply sort_key_base_columns. eapply Forall_impl; [exact Hcols|].
    intros c Hc. by apply Hsub. }
  exists final_df. split; [done|].
  by rewrite main_run, Hbuild, Hne, Hmerge, Hsort.
Qed.

(** X10.  On a directory whose name has no underscore [main] raises
    [IndexError] right after its first line of output: no file of the
    directory is read and the output file is not touched. *)
Theorem directory_name_without_underscore_raises (a : args) (w : world) :
  count_char "_" (dir_name (arg_dir a)) = 0%nat →
  ∃ w', main a w = (Raised (Exn IndexError "list index out of range"), w') ∧
        output_file w' = output_file w ∧
        stdout w' = stdout w ++
                    ["Parsing data for machine: " +:+ dir_name (arg_dir a)].
Proof.
  intros Hcount. rewrite main_run, build_run.
  pose proof (split_length "_" (dir_name (arg_dir a))) as Hlen.
  rewrite Hcount in Hlen.
  destruct (PyStr.split "_" (dir_name (arg_dir a))) as [|m [|c pieces]];
    try done.
  by eexists.
Qed.

(** X11.  With the append flag and an output file that [read_csv] finds
    empty, the run writes what a run without the flag writes. *)
Theorem empty_output_file_is_overwritten (d : directory) (out : string)
    (w w1 : world) (new_df : table) (content : csv_text) (e : exn) :
  build_combined_dataframe d (started (Args d out true) w)
  = (Returned new_df, w1) →
  df_empty new_df = false →
  output_file w = Some content →
  read_csv content = Raised e →
  exn_cls e = EmptyDataError →
  ∃ final_df w_append w_fresh,
    main (Args d out true) w = (Returned tt, w_append) ∧
    main (Args d out false) w = (Returned tt, w_fresh) ∧
    output_file w_append = Some (to_csv final_df) ∧
    output_file w_fresh = Some (to_csv final_df) ∧
    Permutation (rows new_df) (rows final_df).
Proof.
  intros Hbuild Hne Hout Hread Hcls.
  pose proof (build_returns _ _ _ _ Hbuild) as (_ & _ & Hout1).
  simpl in Hout1.
  assert (Happend : merge_existing (Args d out true) new_df w1
    = (Returned new_df,
       printed w1 ["Appending to existing file: " +:+ out])).
  { rewrite merge_existing_run. simpl. rewrite Hout1, Hout, Hread. simpl.
    by rewrite decide_True. }
  assert (Hfresh : merge_existing (Args d out false) new_df w1
    = (Returned new_df, w1)) by by rewrite merge_existing_run.
  destruct (main_after_merge (Args d out true) w _ _ _ _ Hbuild Hne Happend)
    as (final_df & Hsort & Hmain).
  destruct (main_after_merge (Args d out false) w _ _ _ _ Hbuild Hne Hfresh)
    as (final_df' & Hsort' & Hmain').
  rewrite Hsort in Hsort'. injection Hsort' as <-.
  eexists final_df, _, _. split; [exact Hmain|]. split; [exact Hmain'|].
  split; [done|]. split; [done|].
  by apply sort_values_rows in Hsort as (_ & Hperm & _).
Qed.

(** X12.  With the append flag and an output file on which [read_csv]
    raises anything but [EmptyDataError], [main] raises that exception
    and leaves the file as it is. *)
Theorem unreadable_output_file_is_kept (a : args) (w w1 : world)
    (new_df : table) (content : csv_text) (e : exn) :
  build_combined_dataframe (arg_dir a) (started a w) = (Returned new_df, w1) →
  df_empty new_df = false →
  arg_append a = true →
  output_file w = Some content →
  read_csv content = Raised e →
  exn_cls e ≠ EmptyDataError →
  ∃ w', main a w = (Raised e, w') ∧ output_file w' = Some content.
Proof.
  intros Hbuild Hne Happend Hout Hread Hcls.
  pose proof (build_returns _ _ _ _ Hbuild) as (_ & _ & Hout1).
  simpl in Hout1.
  rewrite main_run, Hbuild, Hne, merge_existing_run, Happend, Hout1, Hout,
    Hread.
  simpl. rewrite decide_False by done.
  eexists. split; [done|]. simpl. by rewrite Hout1.
Qed.

(** X13.  With the append flag and an output file that [read_csv] reads,
    the table written has the rows read and the new rows, as many as both
    together, and every column of either table. *)
Theorem appended_table_has_rows_and_columns_of_both (a : args) (w w1 : world)
    (new_df existing_df : table) (content : csv_text) :
  build_combined_dataframe (arg_dir a) (started a w) = (Returned new_df, w1) →
  df_empty new_df = false →
  arg_append a = true →
  output_file w = Some content →
  read_csv content = Returned existing_df →
  ∃ final_df w',
    main a w = (Returned tt, w') ∧
    output_file w' = Some (to_csv final_df) ∧
    Permutation (rows existing_df ++ rows new_df) (rows final_df) ∧
    length (rows final_df)
    = (length (rows existing_df) + length (rows new_df))%nat ∧
    columns final_df = columns existing_df ∪ columns new_df ∧
    last (stdout w')
    = Some ("Success! Exported " +:+ pretty (length (rows new_df)) +:+
            " new rows. Total rows in file: " +:+
            pretty (length (rows existing_df) + length (rows new_df))%nat).
Proof.
  intros Hbuild Hne Happend Hout Hread.
  pose proof (build_returns _ _ _ _ Hbuild) as (_ & _ & Hout1).
  simpl in Hout1.
  assert (Hmerge : merge_existing a new_df w1
    = (Returned (concat existing_df new_df),
       printed w1 ["Appending to existing file: " +:+ arg_output a])).
  { by rewrite merge_existing_run, Happend, Hout1, Hout, Hread. }
  destruct (main_after_merge a w _ _ _ _ Hbuild Hne Hmerge)
    as (final_df & Hsort & Hmain).
  apply sort_values_rows in Hsort as (Hcols & Hperm & _). simpl in *.
  assert (Hlen : length (rows final_df)
    = (length (rows existing_df) + length (rows new_df))%nat).
  { by rewrite <-Hperm, length_app. }
  eexists final_df, _. split; [exact Hmain|]. split; [done|].
  split; [done|]. split; [done|]. split; [done|].
  simpl. by rewrite last_snoc, Hlen.
Qed.

(** X14.  Without the append flag a second run over the same directory
    leaves the output file as the first run left it. *)
Theorem second_run_writes_the_same (d : directory) (out : string)
    (w0 wb : world) (new_df : table) :
  build_combined_dataframe d (started (Args d out false) w0)
  = (Returned new_df, wb) →
  ∃ w1 w2,
    main (Args d out false) w0 = (Returned tt, w1) ∧
    main (Args d out false) w1 = (Returned tt, w2) ∧
    output_file w2 = output_file w1.
Proof.
  intros Hbuild.
  destruct (build_again d _ _ (started (Args d out false)
              (printed wb ["No valid file pairs found."])) _ Hbuild)
    as [wb1 Hbuild1].
  destruct (df_empty new_df) eqn:Hne.
  - eexists _, _. rewrite main_run. cbn [arg_dir]. rewrite Hbuild, Hne.
    split; [done|]. rewrite main_run. cbn [arg_dir]. rewrite Hbuild1, Hne.
    split; [done|]. simpl.
    by apply build_returns in Hbuild1 as (_ & _ & ->).
  - assert (Hfresh : ∀ v, merge_existing (Args d out false) new_df v
      = (Returned new_df, v)) by (intros; by rewrite merge_existing_run).
    destruct (main_after_merge (Args d out false) w0 _ _ _ _
                Hbuild Hne (Hfresh _)) as (final_df & Hsort & Hmain).
    match type of Hmain with _ = (_, ?v) => set (w1 := v) in * end.
    destruct (build_again d _ _ (started (Args d out false) w1) _ Hbuild)
      as [wb2 Hbuild2].
    destruct (main_after_merge (Args d out false) w1 _ _ _ _
                Hbuild2 Hne (Hfresh _)) as (final_df' & Hsort' & Hmain').
    rewrite Hsort in Hsort'. injection Hsort' as <-.
    exists w1. eexists. split; [exact Hmain|]. split; [exact Hmain'|]. done.
Qed.

End EntryFacts.

(** ** The further properties on sample inputs *)

Lemma lines_without_third_field_record_nothing_witness :
  Forall (λ line, (count_char ";" line < 2)%nat) Cases.short_lines ∧
  parse_perf_semicolon_format "/bench/m1_gcc9/r1_5h_t4.data"
    (Lines Cases.short_lines None) Sample.fresh
  = (Returned ∅, Sample.fresh).
Proof.
  assert (Hshort : Forall (λ line, (count_char ";" line < 2)%nat)
                     Cases.short_lines)
    by (repeat constructor; vm_compute; lia).
  split; [exact Hshort|].
  exact (lines_without_third_field_record_nothing (H0 := Sample.pandas)
           "/bench/m1_gcc9/r1_5h_t4.data" Cases.short_lines Sample.fresh
           Hshort).
Defined.

Lemma last_line_of_a_name_decides_witness :
  ∃ metrics w',
    parse_perf_semicolon_format "/bench/m1_gcc9/r1_5h_t4.data"
      (Lines Cases.twice None) Sample.fresh = (Returned metrics, w') ∧
    metrics !! "cycles" = Some (Some (25, 1%nat)).
Proof.
  refine (last_line_of_a_name_decides (H0 := Sample.pandas)
            "/bench/m1_gcc9/r1_5h_t4.data"
            ["1.5;ns;'cycles'" +:+ Sample.nl; "9;ns" +:+ Sample.nl]
            (" 2.5 ; ns ; cycles " +:+ Sample.nl)
            ["7;;misses" +:+ Sample.nl] None Sample.fresh "2.5" "cycles"
            _ _ _).
  - reflexivity.
  - reflexivity.
  - repeat constructor. vm_compute. intros [=].
Defined.

Lemma matched_groups_are_natural_numbers_witness :
  filename_re_match "r2_14h_t8" = Some ("2", "14", "h"%char, "8") ∧
  ∃ repetition query n_threads,
    py_int "2" = Returned repetition ∧ py_int "14" = Returned query ∧
    py_int "8" = Returned n_threads ∧
    0 ≤ repetition ∧ 0 ≤ query ∧ 0 ≤ n_threads.
Proof.
  split; [reflexivity|].
  exact (matched_groups_are_natural_numbers "r2_14h_t8" "2" "14" "h" "8"
           eq_refl).
Defined.

Lemma run_without_readable_dump_has_base_columns_witness :
  is_Some (filename_re_match (PyPath.stem "r1_5h_t4.csv")) ∧
  path_exists Cases.locked_dump (PyPath.stem "r1_5h_t4.csv" +:+ ".data")
  = Returned true ∧
  open_text Cases.locked_dump (PyPath.stem "r1_5h_t4.csv" +:+ ".data")
  = OpenFails (Exn OSError "Permission denied") ∧
  ∃ repetition query eng threads label time w',
    scan_file Cases.locked_dump "m1" "gcc9"
      ("r1_5h_t4.csv", Sample.timing "Q5" "123.4") [] Sample.fresh
    = (Returned ([] ++ [row_literal "m1" "gcc9" repetition query eng threads
                          label time]), w') ∧
    dom (row_literal (H := Sample.runtime) "m1" "gcc9" repetition query eng
           threads label time) = list_to_set base_columns ∧
    output_file w' = output_file Sample.fresh.
Proof.
  assert (Hm : is_Some (filename_re_match (PyPath.stem "r1_5h_t4.csv")))
    by (eexists; reflexivity).
  assert (Hfound :
    path_exists Cases.locked_dump (PyPath.stem "r1_5h_t4.csv" +:+ ".data")
    = Returned true) by reflexivity.
  assert (Hopen :
    open_text Cases.locked_dump (PyPath.stem "r1_5h_t4.csv" +:+ ".data")
    = OpenFails (Exn OSError "Permission denied")) by reflexivity.
  split; [exact Hm|]. split; [exact Hfound|]. split; [exact Hopen|].
  apply (run_without_readable_dump_has_base_columns Cases.locked_dump
           "m1" "gcc9" "r1_5h_t4.csv" (Sample.timing "Q5" "123.4") []
           Sample.fresh Hm).
  right. split; [exact Hfound|]. eexists. exact Hopen.
Defined.

Lemma one_row_per_matched_csv_witness :
  build_combined_dataframe Sample.m1_gcc9 Sample.fresh
  = (Returned (pd_DataFrame
                 [<["cycles" := VFloat (420, 1%nat)]>
                    (Sample.run_row 1 5 "h" 4 "Q5" (1234, 1%nat))]),
     Sample.fresh) ∧
  length (matched_csv Sample.m1_gcc9) = 1%nat ∧
  size (dir_files Sample.m1_gcc9) = 3%nat ∧
  length (rows (pd_DataFrame
                  [<["cycles" := VFloat (420, 1%nat)]>
                     (Sample.run_row 1 5 "h" 4 "Q5" (1234, 1%nat))]))
  = length (matched_csv Sample.m1_gcc9) ∧
  (length (matched_csv Sample.m1_gcc9) ≤ size (dir_files Sample.m1_gcc9))%nat.
Proof.
  assert (Hbuild :
    build_combined_dataframe Sample.m1_gcc9 Sample.fresh
    = (Returned (pd_DataFrame
                   [<["cycles" := VFloat (420, 1%nat)]>
                      (Sample.run_row 1 5 "h" 4 "Q5" (1234, 1%nat))]),
       Sample.fresh)) by reflexivity.
  split; [exact Hbuild|]. split; [reflexivity|]. split; [reflexivity|].
  exact (one_row_per_matched_csv Sample.m1_gcc9 Sample.fresh Sample.fresh _
           Hbuild).
Defined.

Lemma rows_share_machine_and_compiler_witness :
  PyStr.split "_" (dir_name Sample.nodeA) = ["nodeA"; "clangO3"; "extra"] ∧
  build_combined_dataframe Sample.nodeA Sample.fresh
  = (Returned (pd_DataFrame
                 [row_literal (H := Sample.runtime) "nodeA" "clangO3" 2 14 "h"
                    8 (Some "Q14") (Some (75, 1%nat))]),
     Sample.fresh) ∧
  matched_csv Sample.nodeA = [("r2_14h_t8.csv", Sample.timing "Q14" "7.5")] ∧
  Forall2
    (λ (cf : string * file) (r : row),
       (∀ rs v, ∃ v', scan_file Sample.nodeA "nodeA" "clangO3" cf rs v
                      = (Returned (rs ++ [r]), v')) ∧
       (companion_metrics Sample.nodeA (PyPath.stem cf.1) !! "machine" = None →
        r !! "machine" = Some (VStr "nodeA")) ∧
       (companion_metrics Sample.nodeA (PyPath.stem cf.1) !! "compiler" = None →
        r !! "compiler" = Some (VStr "clangO3")))
    (matched_csv Sample.nodeA)
    [row_literal (H := Sample.runtime) "nodeA" "clangO3" 2 14 "h" 8
       (Some "Q14") (Some (75, 1%nat))].
Proof.
  assert (Hbuild :
    build_combined_dataframe Sample.nodeA Sample.fresh
    = (Returned (pd_DataFrame
                   [row_literal (H := Sample.runtime) "nodeA" "clangO3" 2 14
                      "h" 8 (Some "Q14") (Some (75, 1%nat))]),
       Sample.fresh)) by reflexivity.
  split; [reflexivity|]. split; [exact Hbuild|]. split; [reflexivity|].
  exact (rows_share_machine_and_compiler Sample.nodeA Sample.fresh
           Sample.fresh _ "nodeA" "clangO3" ["extra"] eq_refl Hbuild).
Defined.

Lemma visited_file_is_stem_with_csv_witness :
  ("r1_5h_t4.csv", Sample.timing "Q5" "123.4") ∈ glob_csv Sample.m1_gcc9 ∧
  dir_files Sample.m1_gcc9 !! "r1_5h_t4.csv" = Some (Sample.timing "Q5" "123.4") ∧
  "r1_5h_t4.csv" = PyPath.stem "r1_5h_t4.csv" +:+ ".csv".
Proof.
  assert (Hin : ("r1_5h_t4.csv", Sample.timing "Q5" "123.4")
                ∈ glob_csv Sample.m1_gcc9)
    by (apply glob_csv_entry; split; reflexivity).
  split; [exact Hin|].
  apply (visited_file_is_stem_with_csv Sample.m1_gcc9
           ("r1_5h_t4.csv", Sample.timing "Q5" "123.4") Hin).
  simpl. intros [=].
Defined.

Lemma table_columns_are_base_and_metric_names_witness :
  build_combined_dataframe Sample.m1_gcc9 Sample.fresh
  = (Returned (pd_DataFrame
                 [<["cycles" := VFloat (420, 1%nat)]>
                    (Sample.run_row 1 5 "h" 4 "Q5" (1234, 1%nat))]),
     Sample.fresh) ∧
  "cycles" ∈ columns (pd_DataFrame
                 [<["cycles" := VFloat (420, 1%nat)]>
                    (Sample.run_row 1 5 "h" 4 "Q5" (1234, 1%nat))]).
Proof.
  assert (Hbuild :
    build_combined_dataframe Sample.m1_gcc9 Sample.fresh
    = (Returned (pd_DataFrame
                   [<["cycles" := VFloat (420, 1%nat)]>
                      (Sample.run_row 1 5 "h" 4 "Q5" (1234, 1%nat))]),
       Sample.fresh)) by reflexivity.
  split; [exact Hbuild|].
  apply (table_columns_are_base_and_metric_names Sample.m1_gcc9 Sample.fresh
           Sample.fresh _ Hbuild "cycles").
  exists ("r1_5h_t4.csv", Sample.timing "Q5" "123.4"). split.
  - apply matched_csv_entry. split.
    + apply glob_csv_entry; split; reflexivity.
    + eexists; reflexivity.
  - right. eexists; reflexivity.
Defined.

Lemma directory_name_without_underscore_raises_witness :
  count_char "_" (dir_name Cases.results) = 0%nat ∧
  ∃ w', main (Sample.write_new Cases.results) Sample.fresh
        = (Raised (Exn IndexError "list index out of range"), w') ∧
        output_file w' = output_file Sample.fresh ∧
        stdout w' = stdout Sample.fresh ++
                    ["Parsing data for machine: " +:+ dir_name Cases.results].
Proof.
  split; [reflexivity|].
  exact (directory_name_without_underscore_raises
           (Sample.write_new Cases.results) Sample.fresh eq_refl).
Defined.

Lemma empty_output_file_is_overwritten_witness :
  let a := Sample.append_to Sample.three_runs in
  let e := Exn EmptyDataError "No columns to parse from file" in
  build_combined_dataframe Sample.three_runs (started a Cases.empty_output)
  = (Returned Sample.three_runs_table, started a Cases.empty_output) ∧
  df_empty Sample.three_runs_table = false ∧
  output_file Cases.empty_output = Some None ∧
  read_csv (Pandas := Sample.pandas) None = Raised e ∧
  ∃ final_df w_append w_fresh,
    main a Cases.empty_output = (Returned tt, w_append) ∧
    main (Sample.write_new Sample.three_runs) Cases.empty_output
    = (Returned tt, w_fresh) ∧
    output_file w_append = Some (Some final_df) ∧
    output_file w_fresh = Some (Some final_df) ∧
    Permutation (rows Sample.three_runs_table) (rows final_df).
Proof.
  intros a e.
  assert (Hbuild :
    build_combined_dataframe Sample.three_runs
      (started (Args Sample.three_runs "combined_results.csv" true)
         Cases.empty_output)
    = (Returned Sample.three_runs_table, started a Cases.empty_output))
    by reflexivity.
  assert (Hne : df_empty Sample.three_runs_table = false) by reflexivity.
  split; [exact Hbuild|]. split; [exact Hne|]. split; [reflexivity|].
  split; [reflexivity|].
  exact (empty_output_file_is_overwritten Sample.three_runs
           "combined_results.csv" Cases.empty_output _ _ None e
           Hbuild Hne eq_refl eq_refl eq_refl).
Defined.

Lemma unreadable_output_file_is_kept_witness :
  let a := Args Garbled.one_run "combined_results.csv" true in
  let e := Exn ParserError "Error tokenizing data" in
  build_combined_dataframe Garbled.one_run (started a Garbled.garbled_output)
  = (Returned Garbled.one_run_table, started a Garbled.garbled_output) ∧
  df_empty Garbled.one_run_table = false ∧
  read_csv (Pandas := Garbled.pandas) (Garbled.Text "<html>") = Raised e ∧
  exn_cls e ≠ EmptyDataError ∧
  ∃ w', main a Garbled.garbled_output = (Raised e, w') ∧
        output_file w' = Some (Garbled.Text "<html>").
Proof.
  intros a e.
  assert (Hbuild :
    build_combined_dataframe (arg_dir a) (started a Garbled.garbled_output)
    = (Returned Garbled.one_run_table, started a Garbled.garbled_output))
    by reflexivity.
  assert (Hne : df_empty Garbled.one_run_table = false) by reflexivity.
  assert (Hcls : exn_cls e ≠ EmptyDataError) by (simpl; intros [=]).
  split; [exact Hbuild|]. split; [exact Hne|]. split; [reflexivity|].
  split; [exact Hcls|].
  exact (unreadable_output_file_is_kept a Garbled.garbled_output _ _
           (Garbled.Text "<html>") e Hbuild Hne eq_refl eq_refl eq_refl Hcls).
Defined.

Lemma appended_table_has_rows_and_columns_of_both_witness :
  let a := Sample.append_to Sample.three_runs in
  let w := Sample.with_output Sample.earlier_table in
  build_combined_dataframe Sample.three_runs (started a w)
  = (Returned Sample.three_runs_table, started a w) ∧
  df_empty Sample.three_runs_table = false ∧
  ∃ final_df w',
    main a w = (Returned tt, w') ∧
    output_file w' = Some (Some final_df) ∧
    length (rows final_df) = 4%nat ∧
    last (stdout w')
    = Some "Success! Exported 3 new rows. Total rows in file: 4".
Proof.
  intros a w.
  assert (Hbuild :
    build_combined_dataframe (arg_dir a) (started a w)
    = (Returned Sample.three_runs_table, started a w)) by reflexivity.
  assert (Hne : df_empty Sample.three_runs_table = false) by reflexivity.
  split; [exact Hbuild|]. split; [exact Hne|].
  destruct (appended_table_has_rows_and_columns_of_both a w _ _
              Sample.earlier_table (Some Sample.earlier_table)
              Hbuild Hne eq_refl eq_refl eq_refl)
    as (final_df & w' & Hmain & Hout & _ & Hlen & _ & Hlast).
  exists final_df, w'. repeat split; assumption.
Defined.

Lemma second_run_writes_the_same_witness :
  build_combined_dataframe Sample.three_runs
    (started (Args Sample.three_runs "combined_results.csv" false)
       Sample.fresh)
  = (Returned Sample.three_runs_table,
     started (Args Sample.three_runs "combined_results.csv" false)
       Sample.fresh) ∧
  ∃ w1 w2,
    main (Args Sample.three_runs "combined_results.csv" false) Sample.fresh
    = (Returned tt, w1) ∧
    main (Args Sample.three_runs "combined_results.csv" false) w1
    = (Returned tt, w2) ∧
    output_file w2 = output_file w1.
Proof.
  assert (Hbuild :
    build_combined_dataframe Sample.three_runs
      (started (Args Sample.three_runs "combined_results.csv" false)
         Sample.fresh)
    = (Returned Sample.three_runs_table,
       started (Args Sample.three_runs "combined_results.csv" false)
         Sample.fresh)) by reflexivity.
  split; [exact Hbuild|].
  exact (second_run_writes_the_same Sample.three_runs "combined_results.csv"
           Sample.fresh _ _ Hbuild).
Defined.

(** ** What the scan prints *)

Section ScanOutput.
Context `{Pandas}.

(** X15.  Whatever the directory holds, the scan leaves the output file
    alone and prints nothing but one error line for a counter dump of a
    matched file that could not be read to its end, naming that dump. *)
Theorem scan_prints_only_dump_errors (d : directory) (w : world) :
  ∃ o lines,
    build_combined_dataframe d w = (o, World (stdout w ++ lines) (output_file w)) ∧
    ∀ line, line ∈ lines →
      ∃ cf perf_file e,
        cf ∈ matched_csv d ∧
        dir_files d !! (PyPath.stem cf.1 +:+ ".data") = Some perf_file ∧
        (as_text perf_file = OpenFails e ∨
         ∃ ls, as_text perf_file = Lines ls (Some e)) ∧
        line = "Error reading " +:+
               (dir_path d +:+ "/" +:+ PyPath.stem cf.1 +:+ ".data") +:+
               ": " +:+ exn_str e.
Proof.
  rewrite build_run.
  destruct (PyStr.split "_" (dir_name d)) as [|m [|c pieces]].
  - exists (Raised (Exn IndexError "list index out of range")), [].
    split; [by rewrite <-(printed_nil w) at 1|]. by intros ? ?%elem_of_nil.
  - exists (Raised (Exn IndexError "list index out of range")), [].
    split; [by rewrite <-(printed_nil w) at 1|]. by intros ? ?%elem_of_nil.
  - cbn zeta. eexists _, _. split; [reflexivity|].
    intros line (cf & Hcf & Hline)%scan_files_lines.
    unfold log_of in Hline.
    destruct (filename_re_match (PyPath.stem cf.1)) as [g|] eqn:Hm;
      [|by apply elem_of_nil in Hline].
    unfold companion_log in Hline.
    destruct (dir_files d !! (PyPath.stem cf.1 +:+ ".data")) as [pf|] eqn:Hpf;
      [|by apply elem_of_nil in Hline].
    simpl in Hline. unfold perf_log, error_line in Hline.
    assert (Hmatched : cf ∈ matched_csv d).
    { apply matched_csv_entry. split; [done|]. rewrite Hm. by eexists. }
    destruct (as_text pf) as [e|ls [e|]] eqn:Htext.
    + apply list_elem_of_singleton in Hline as ->.
      exists cf, pf, e. repeat split; try done. by left.
    + apply list_elem_of_singleton in Hline as ->.
      exists cf, pf, e. repeat split; try done. right. by exists ls.
    + by apply elem_of_nil in Hline.
Qed.

End ScanOutput.
